(** * Local Agent Studio: the run-orchestration client (PipelineContext)

    A shallow embedding of [PipelineProvider]: the reactive state container,
    the event handler that folds the backend's event stream into it, the
    controller calls [run], [stop] and [reset], and the discovery poll.

    Every [setState((s) => ...)] updater of the source is a pure function on
    [PipelineState]; React applies the queued updaters in call order, so a
    run of the program is the left-to-right composition of these functions.
    The two refs ([abortRef], [readerRef]) are carried next to the state in
    a [Session]. *)

From Stdlib Require Import PrimFloat.
From stdpp Require Import base option list strings gmap.

Set Warnings "-inexact-float".
Local Open Scope string_scope.

(** ** Values *)

(** A JavaScript [number] is an IEEE-754 double.  The program only stores and
    replaces numbers, it never computes with them. *)
Abbreviation number := float.

(** [a ?? b] where [b] itself may be [undefined]: [None] stands for a field
    that is absent, [undefined] or [null]. *)
Definition nullish {A} (a b : option A) : option A :=
  match a with
  | Some _ => a
  | None => b
  end.
Infix "??" := nullish (at level 45, right associativity).

(** String coercion of the left operand of [+] when the right one is a
    string: [undefined + "x"] is ["undefinedx"]. *)
Definition js_string (o : option string) : string := default "undefined" o.

(** ** Types *)

Module AgentStatus.
Inductive t := idle | running | done | error.
End AgentStatus.

Module PipelineStatus.
Inductive t := idle | running | done | stopped.
End PipelineStatus.

Inductive ProviderType := simulation | ollama | lmstudio | llamacpp | transformers.

Inductive AgentType :=
  router | coder | analyzer | synthesizer | validator | input | output | custom.

Module Tools.
Record t := mk { web_search : option bool }.
End Tools.

Module NodeConfig.
Record t := mk {
  provider : ProviderType;
  modelId : string;
  systemPrompt : string;
  maxTokens : number;
  temperature : number;
  tools : option Tools.t;
}.
End NodeConfig.

(** The declared type makes every field of [AgentMetrics] mandatory, but
    the handlers build records by spreading what [s.agentMetrics[id]] gives,
    which can be [undefined] or a member inherited from [Object.prototype],
    so every field can be [undefined] at run time ([None]). *)
Module AgentMetrics.
Record t := mk {
  status : option AgentStatus.t;
  tokens : option number;
  tokensPerSec : option number;
  latencyMs : option number;
  vramGb : option number;
  output : option string;
  provider : option ProviderType;
}.
End AgentMetrics.

Module ParallelStageInfo.
Record t := mk {
  stageIndex : option number;
  agentIds : option (list string);
}.
End ParallelStageInfo.

Module ProviderStatus.
Record t := mk {
  ollama : bool;
  lmstudio : bool;
  llamacpp : bool;
  transformers : bool;
}.
End ProviderStatus.

Module SelectedNodeInfo.
Record t := mk { id : string; label : string; agentType : AgentType }.
End SelectedNodeInfo.

Record PipelineState := {
  status : PipelineStatus.t;
  prompt : string;
  agentMetrics : gmap string AgentMetrics.t;
  totalTokens : number;
  totalMs : number;
  error : option string;
  useRealModels : bool;
  providerType : ProviderType;
  providerStatus : ProviderStatus.t;
  availableModels : gmap string (list string);
  selectedNode : option SelectedNodeInfo.t;
  nodeConfigs : gmap string NodeConfig.t;
  activeParallelStage : option ParallelStageInfo.t;
}.

(** [{ ...s, field: v }], one function per field the program overwrites. *)
Definition set_status (v : PipelineStatus.t) (s : PipelineState) : PipelineState :=
  {| status := v; prompt := prompt s; agentMetrics := agentMetrics s;
     totalTokens := totalTokens s; totalMs := totalMs s; error := error s;
     useRealModels := useRealModels s; providerType := providerType s;
     providerStatus := providerStatus s; availableModels := availableModels s;
     selectedNode := selectedNode s; nodeConfigs := nodeConfigs s;
     activeParallelStage := activeParallelStage s |}.

Definition set_agentMetrics (v : gmap string AgentMetrics.t) (s : PipelineState)
  : PipelineState :=
  {| status := status s; prompt := prompt s; agentMetrics := v;
     totalTokens := totalTokens s; totalMs := totalMs s; error := error s;
     useRealModels := useRealModels s; providerType := providerType s;
     providerStatus := providerStatus s; availableModels := availableModels s;
     selectedNode := selectedNode s; nodeConfigs := nodeConfigs s;
     activeParallelStage := activeParallelStage s |}.

Definition set_totalTokens (v : number) (s : PipelineState) : PipelineState :=
  {| status := status s; prompt := prompt s; agentMetrics := agentMetrics s;
     totalTokens := v; totalMs := totalMs s; error := error s;
     useRealModels := useRealModels s; providerType := providerType s;
     providerStatus := providerStatus s; availableModels := availableModels s;
     selectedNode := selectedNode s; nodeConfigs := nodeConfigs s;
     activeParallelStage := activeParallelStage s |}.

Definition set_totalMs (v : number) (s : PipelineState) : PipelineState :=
  {| status := status s; prompt := prompt s; agentMetrics := agentMetrics s;
     totalTokens := totalTokens s; totalMs := v; error := error s;
     useRealModels := useRealModels s; providerType := providerType s;
     providerStatus := providerStatus s; availableModels := availableModels s;
     selectedNode := selectedNode s; nodeConfigs := nodeConfigs s;
     activeParallelStage := activeParallelStage s |}.

Definition set_error (v : option string) (s : PipelineState) : PipelineState :=
  {| status := status s; prompt := prompt s; agentMetrics := agentMetrics s;
     totalTokens := totalTokens s; totalMs := totalMs s; error := v;
     useRealModels := useRealModels s; providerType := providerType s;
     providerStatus := providerStatus s; availableModels := availableModels s;
     selectedNode := selectedNode s; nodeConfigs := nodeConfigs s;
     activeParallelStage := activeParallelStage s |}.

Definition set_providerStatus (v : ProviderStatus.t) (s : PipelineState)
  : PipelineState :=
  {| status := status s; prompt := prompt s; agentMetrics := agentMetrics s;
     totalTokens := totalTokens s; totalMs := totalMs s; error := error s;
     useRealModels := useRealModels s; providerType := providerType s;
     providerStatus := v; availableModels := availableModels s;
     selectedNode := selectedNode s; nodeConfigs := nodeConfigs s;
     activeParallelStage := activeParallelStage s |}.

Definition set_availableModels (v : gmap string (list string)) (s : PipelineState)
  : PipelineState :=
  {| status := status s; prompt := prompt s; agentMetrics := agentMetrics s;
     totalTokens := totalTokens s; totalMs := totalMs s; error := error s;
     useRealModels := useRealModels s; providerType := providerType s;
     providerStatus := providerStatus s; availableModels := v;
     selectedNode := selectedNode s; nodeConfigs := nodeConfigs s;
     activeParallelStage := activeParallelStage s |}.

Definition set_activeParallelStage (v : option ParallelStageInfo.t)
  (s : PipelineState) : PipelineState :=
  {| status := status s; prompt := prompt s; agentMetrics := agentMetrics s;
     totalTokens := totalTokens s; totalMs := totalMs s; error := error s;
     useRealModels := useRealModels s; providerType := providerType s;
     providerStatus := providerStatus s; availableModels := availableModels s;
     selectedNode := selectedNode s; nodeConfigs := nodeConfigs s;
     activeParallelStage := v |}.

(** ** Defaults *)

Definition DEFAULT_AGENT_IDS : list string :=
  ["router-1"; "coder-1"; "analyzer-1"; "validator-1"; "synthesizer-1"].

(** The record [defaultMetrics] gives to every default agent. *)
Definition idleMetrics : AgentMetrics.t :=
  {| AgentMetrics.status := Some AgentStatus.idle;
     AgentMetrics.tokens := Some 0%float;
     AgentMetrics.tokensPerSec := Some 0%float;
     AgentMetrics.latencyMs := Some 0%float;
     AgentMetrics.vramGb := Some 0%float;
     AgentMetrics.output := Some "";
     AgentMetrics.provider := Some simulation |}.

Definition defaultMetrics : gmap string AgentMetrics.t :=
  list_to_map ((λ id, (id, idleMetrics)) <$> DEFAULT_AGENT_IDS).

Definition DEFAULT_PROVIDER_STATUS : ProviderStatus.t :=
  {| ProviderStatus.ollama := false; ProviderStatus.lmstudio := false;
     ProviderStatus.llamacpp := false; ProviderStatus.transformers := false |}.

(** The argument of [useState]. *)
Definition initialState : PipelineState :=
  {| status := PipelineStatus.idle;
     prompt := "Build a user authentication REST API with JWT tokens";
     agentMetrics := defaultMetrics;
     totalTokens := 0%float;
     totalMs := 0%float;
     error := None;
     useRealModels := false;
     providerType := simulation;
     providerStatus := DEFAULT_PROVIDER_STATUS;
     availableModels := ∅;
     selectedNode := None;
     nodeConfigs := ∅;
     activeParallelStage := None |}.

(** ** Event protocol *)

(** One parsed frame.  A field read through [??] in the handler is optional
    ([None]: absent or [null]); so are the fields the handler stores as they
    come.  [event.agentId] is used as a property key and is taken as the
    string the protocol says it is.  Any other [type] is [unknown_event]. *)
Inductive Event :=
  | agent_start (agentId : string) (provider : option ProviderType)
  | agent_token (agentId : string) (token : option string)
      (totalTokens tokensPerSec : option number)
  | agent_vram (agentId : string) (vramGb : option number)
  | agent_done (agentId : string)
      (totalTokens tokensPerSec latencyMs vramGb : option number)
      (provider : option ProviderType)
  | stage_parallel (stageIndex : option number) (agentIds : option (list string))
  | pipeline_done (totalPipelineTokens totalPipelineMs : option number)
  | pipeline_error (message : option string)
  | unknown_event (type : string).

(** The literal [agent_token] falls back to when the agent has no record. *)
Definition freshMetrics : AgentMetrics.t :=
  {| AgentMetrics.status := Some AgentStatus.running;
     AgentMetrics.tokens := Some 0%float;
     AgentMetrics.tokensPerSec := Some 0%float;
     AgentMetrics.latencyMs := Some 0%float;
     AgentMetrics.vramGb := Some 0%float;
     AgentMetrics.output := Some "";
     AgentMetrics.provider := Some simulation |}.

(** The names a plain object inherits from [Object.prototype] (the
    standard members and those of Annex B). *)
Definition OBJECT_PROTOTYPE_KEYS : list string :=
  [ "constructor"; "__defineGetter__"; "__defineSetter__"; "hasOwnProperty";
    "__lookupGetter__"; "__lookupSetter__"; "isPrototypeOf";
    "propertyIsEnumerable"; "toString"; "valueOf"; "__proto__";
    "toLocaleString" ].

(** What an inherited member is when it is used as a metrics record: a
    function (for "__proto__" the prototype object), which is truthy, has
    none of the fields of a record and no enumerable property of its own. *)
Definition inheritedMember : AgentMetrics.t :=
  {| AgentMetrics.status := None;
     AgentMetrics.tokens := None;
     AgentMetrics.tokensPerSec := None;
     AgentMetrics.latencyMs := None;
     AgentMetrics.vramGb := None;
     AgentMetrics.output := None;
     AgentMetrics.provider := None |}.

(** [metrics[id]]: the record stored under [id]; without one, the member
    the object inherits under that name; otherwise [undefined]. *)
Definition get_metrics (metrics : gmap string AgentMetrics.t) (id : string)
  : option AgentMetrics.t :=
  match metrics !! id with
  | Some m => Some m
  | None =>
      if bool_decide (id ∈ OBJECT_PROTOTYPE_KEYS) then Some inheritedMember
      else None
  end.

(** [case "agent_start"]: [{ ...s.agentMetrics[id], status, provider }].
    Spreading [undefined] or an inherited member contributes no field. *)
Definition on_agent_start (id : string) (provider : option ProviderType)
  (s : PipelineState) : PipelineState :=
  let prev := get_metrics (agentMetrics s) id in
  set_agentMetrics
    (<[id := {| AgentMetrics.status := Some AgentStatus.running;
                AgentMetrics.tokens := prev ≫= AgentMetrics.tokens;
                AgentMetrics.tokensPerSec := prev ≫= AgentMetrics.tokensPerSec;
                AgentMetrics.latencyMs := prev ≫= AgentMetrics.latencyMs;
                AgentMetrics.vramGb := prev ≫= AgentMetrics.vramGb;
                AgentMetrics.output := prev ≫= AgentMetrics.output;
                AgentMetrics.provider := Some (default simulation provider) |}]>
       (agentMetrics s)) s.

(** [case "agent_token"]: the [??] fallback is taken only when
    [s.agentMetrics[id]] is [undefined]. *)
Definition on_agent_token (id : string) (token : option string)
  (totalTokens tokensPerSec : option number) (s : PipelineState) : PipelineState :=
  let prev := default freshMetrics (get_metrics (agentMetrics s) id) in
  set_agentMetrics
    (<[id := {| AgentMetrics.status := AgentMetrics.status prev;
                AgentMetrics.tokens := totalTokens ?? AgentMetrics.tokens prev;
                AgentMetrics.tokensPerSec :=
                  tokensPerSec ?? AgentMetrics.tokensPerSec prev;
                AgentMetrics.latencyMs := AgentMetrics.latencyMs prev;
                AgentMetrics.vramGb := AgentMetrics.vramGb prev;
                AgentMetrics.output :=
                  Some (js_string (AgentMetrics.output prev) +:+ default "" token);
                AgentMetrics.provider := AgentMetrics.provider prev |}]>
       (agentMetrics s)) s.

(** [case "agent_vram"]: [if (!prev) return s] lets an inherited member
    through. *)
Definition on_agent_vram (id : string) (vramGb : option number)
  (s : PipelineState) : PipelineState :=
  match get_metrics (agentMetrics s) id with
  | None => s
  | Some prev =>
      set_agentMetrics
        (<[id := {| AgentMetrics.status := AgentMetrics.status prev;
                    AgentMetrics.tokens := AgentMetrics.tokens prev;
                    AgentMetrics.tokensPerSec := AgentMetrics.tokensPerSec prev;
                    AgentMetrics.latencyMs := AgentMetrics.latencyMs prev;
                    AgentMetrics.vramGb := vramGb;
                    AgentMetrics.output := AgentMetrics.output prev;
                    AgentMetrics.provider := AgentMetrics.provider prev |}]>
           (agentMetrics s)) s
  end.

(** [case "agent_done"], with the same guard. *)
Definition on_agent_done (id : string)
  (totalTokens tokensPerSec latencyMs vramGb : option number)
  (provider : option ProviderType) (s : PipelineState) : PipelineState :=
  match get_metrics (agentMetrics s) id with
  | None => s
  | Some prev =>
      set_agentMetrics
        (<[id := {| AgentMetrics.status := Some AgentStatus.done;
                    AgentMetrics.tokens := totalTokens ?? AgentMetrics.tokens prev;
                    AgentMetrics.tokensPerSec :=
                      tokensPerSec ?? AgentMetrics.tokensPerSec prev;
                    AgentMetrics.latencyMs := latencyMs ?? AgentMetrics.latencyMs prev;
                    AgentMetrics.vramGb := vramGb ?? AgentMetrics.vramGb prev;
                    AgentMetrics.output := AgentMetrics.output prev;
                    AgentMetrics.provider := provider ?? AgentMetrics.provider prev |}]>
           (agentMetrics s)) s
  end.

(** [handleEvent]: the [switch] on [event.type]; no [default] branch. *)
Definition handleEvent (event : Event) (s : PipelineState) : PipelineState :=
  match event with
  | agent_start id provider => on_agent_start id provider s
  | agent_token id token totalTokens tokensPerSec =>
      on_agent_token id token totalTokens tokensPerSec s
  | agent_vram id vramGb => on_agent_vram id vramGb s
  | agent_done id totalTokens tokensPerSec latencyMs vramGb provider =>
      on_agent_done id totalTokens tokensPerSec latencyMs vramGb provider s
  | stage_parallel stageIndex agentIds =>
      set_activeParallelStage
        (Some {| ParallelStageInfo.stageIndex := stageIndex;
                 ParallelStageInfo.agentIds := agentIds |}) s
  | pipeline_done totalPipelineTokens totalPipelineMs =>
      set_totalMs (default (totalMs s) totalPipelineMs)
        (set_totalTokens (default (totalTokens s) totalPipelineTokens)
           (set_activeParallelStage None (set_status PipelineStatus.done s)))
  | pipeline_error message =>
      set_error (Some (default "Unknown error" message))
        (set_activeParallelStage None (set_status PipelineStatus.stopped s))
  | unknown_event _ => s
  end.

(** Frames are applied one by one, in arrival order. *)
Definition handleEvents (events : list Event) (s : PipelineState) : PipelineState :=
  foldl (λ acc event, handleEvent event acc) s events.

(** ** Run controller *)

(** What the two refs point to: only the flag each call flips matters. *)
Record AbortController := { aborted : bool }.
Record StreamReader := { cancelled : bool }.

Record Session := {
  state : PipelineState;
  abortRef : option AbortController;
  readerRef : option StreamReader;
}.

(** [ref.current?.abort()] and [ref.current?.cancel()]. *)
Definition abort (ref : option AbortController) : option AbortController :=
  (λ _, {| aborted := true |}) <$> ref.
Definition cancel (ref : option StreamReader) : option StreamReader :=
  (λ _, {| cancelled := true |}) <$> ref.

(** A transport is active when the current controller's signal is not
    aborted. *)
Definition transport_active (x : Session) : bool :=
  match abortRef x with
  | Some c => negb (aborted c)
  | None => false
  end.

(** The updater of [run]. *)
Definition run_updater (s : PipelineState) : PipelineState :=
  set_error None
    (set_totalMs 0%float
       (set_totalTokens 0%float
          (set_agentMetrics defaultMetrics (set_status PipelineStatus.running s)))).

(** [run], up to its first [await]: the previous controller is aborted and
    replaced, the updater is queued; the request goes out afterwards. *)
Definition run (x : Session) : Session :=
  {| state := run_updater (state x);
     abortRef := Some {| aborted := false |};
     readerRef := readerRef x |}.

(** A value caught by [catch (err: unknown)]. *)
Inductive Thrown :=
  | error_object (name message : string)
  | other_value (text : string).

(** What [abort()] makes the pending [fetch] or [read] reject with. *)
Definition AbortError : Thrown :=
  error_object "AbortError" "The operation was aborted.".

(** The [catch] branch of [run]. *)
Definition run_catch (err : Thrown) (s : PipelineState) : PipelineState :=
  match err with
  | error_object name message =>
      if String.eqb name "AbortError" then s
      else set_error
             (Some ("Connection failed: " +:+ message +:+ ". Is the backend running?"))
             (set_status PipelineStatus.stopped s)
  | other_value text =>
      set_error
        (Some ("Connection failed: " +:+ text +:+ ". Is the backend running?"))
        (set_status PipelineStatus.stopped s)
  end.

(** The body of a response: a stream, or [null] (a 204 or 205), on which
    [response.body!.getReader()] throws a [TypeError] with the engine's
    [message]. *)
Inductive ResponseBody :=
  | stream_body
  | null_body (message : string).

(** The response headers arrive: a status that is not ok, and a body that
    is [null], are thrown into the [catch] branch; otherwise the body reader
    is stored in [readerRef].  [code] is the decimal text of
    [response.status]. *)
Definition on_response (ok : bool) (code : string) (body : ResponseBody)
  (x : Session) : Session :=
  if ok then
    match body with
    | stream_body =>
        {| state := state x; abortRef := abortRef x;
           readerRef := Some {| cancelled := false |} |}
    | null_body message =>
        {| state := run_catch (error_object "TypeError" message) (state x);
           abortRef := abortRef x; readerRef := readerRef x |}
    end
  else
    {| state := run_catch (error_object "Error" ("Backend error: " +:+ code)) (state x);
       abortRef := abortRef x; readerRef := readerRef x |}.

Definition stop (x : Session) : Session :=
  {| state := set_status PipelineStatus.stopped (state x);
     abortRef := abort (abortRef x);
     readerRef := cancel (readerRef x) |}.

(** The updater of [reset]. *)
Definition reset_updater (s : PipelineState) : PipelineState :=
  set_error None
    (set_totalMs 0%float
       (set_totalTokens 0%float
          (set_agentMetrics defaultMetrics (set_status PipelineStatus.idle s)))).

Definition reset (x : Session) : Session :=
  {| state := reset_updater (state x);
     abortRef := abort (abortRef x);
     readerRef := cancel (readerRef x) |}.

(** The session [PipelineProvider] mounts with. *)
Definition initialSession : Session :=
  {| state := initialState; abortRef := None; readerRef := None |}.

(** ** Discovery poll *)

Module Providers.
Record t := mk {
  ollama : option bool;
  lmstudio : option bool;
  llamacpp : option bool;
  transformers : option bool;
}.
End Providers.

(** The bodies of [/api/providers] and [/api/models]. *)
Record ProvData := { providers : option Providers.t }.
Record ModData := { models : option (gmap string (list string)) }.

(** A parsed body as [x && {...}] sees it. *)
Inductive Json (A : Type) :=
  | json_falsy
  | json_data (a : A).
Arguments json_falsy {A}.
Arguments json_data {A} a.

Inductive FetchFailure := network_error | timeout.

(** The outcome of one [fetch]: the promise rejects, or a response arrives
    with its [ok] flag and what [json()] would give ([None]: it rejects). *)
Inductive Fetched (A : Type) :=
  | fetch_rejected (why : FetchFailure)
  | response (ok : bool) (json : option (Json A)).
Arguments fetch_rejected {A} why.
Arguments response {A} ok json.

(** [res.ok ? await res.json() : null]; [None] when [json()] rejects. *)
Definition read_body {A} (ok : bool) (json : option (Json A)) : option (Json A) :=
  if ok then json else Some json_falsy.

Definition spread_providerStatus (provData : Json ProvData) (s : PipelineState)
  : PipelineState :=
  match provData with
  | json_falsy => s
  | json_data d =>
      set_providerStatus
        {| ProviderStatus.ollama := default false (providers d ≫= Providers.ollama);
           ProviderStatus.lmstudio := default false (providers d ≫= Providers.lmstudio);
           ProviderStatus.llamacpp := default false (providers d ≫= Providers.llamacpp);
           ProviderStatus.transformers :=
             default false (providers d ≫= Providers.transformers) |} s
  end.

Definition spread_availableModels (modData : Json ModData) (s : PipelineState)
  : PipelineState :=
  match modData with
  | json_falsy => s
  | json_data d => set_availableModels (default ∅ (models d)) s
  end.

(** One run of [fetchStatus]: anything thrown inside [try] ends in the empty
    [catch]. *)
Definition fetchStatus (provRes : Fetched ProvData) (modRes : Fetched ModData)
  (s : PipelineState) : PipelineState :=
  match provRes, modRes with
  | response provOk provJson, response modOk modJson =>
      match read_body provOk provJson with
      | None => s
      | Some provData =>
          match read_body modOk modJson with
          | None => s
          | Some modData =>
              spread_availableModels modData (spread_providerStatus provData s)
          end
      end
  | _, _ => s
  end.

(** A request fails: network error, timeout, or a response that is not ok. *)
Definition request_failed {A} (r : Fetched A) : bool :=
  match r with
  | fetch_rejected _ => true
  | response ok _ => negb ok
  end.

(** ** Sessions as traces *)

Inductive Action :=
  | call_run
  | call_stop
  | call_reset
  | got_response (ok : bool) (code : string) (body : ResponseBody)
  | got_frame (event : Event)
  | got_thrown (err : Thrown)
  | got_poll (provRes : Fetched ProvData) (modRes : Fetched ModData).

Definition on_state (f : PipelineState → PipelineState) (x : Session) : Session :=
  {| state := f (state x); abortRef := abortRef x; readerRef := readerRef x |}.

Definition step (x : Session) (a : Action) : Session :=
  match a with
  | call_run => run x
  | call_stop => stop x
  | call_reset => reset x
  | got_response ok code body => on_response ok code body x
  | got_frame event => on_state (handleEvent event) x
  | got_thrown err => on_state (run_catch err) x
  | got_poll provRes modRes => on_state (fetchStatus provRes modRes) x
  end.

Definition exec (trace : list Action) (x : Session) : Session :=
  foldl step x trace.

(** ** Vocabulary of the properties *)

(** The frames of the end-to-end scenario. *)
Definition scenario_events : list Event :=
  [ agent_start "router-1" None;
    agent_token "router-1" (Some "Hi") (Some 1%float) (Some 5%float);
    agent_done "router-1" (Some 1%float) (Some 5%float) (Some 120%float)
      (Some 2.1%float) None;
    pipeline_done (Some 1%float) (Some 120%float) ].

(** The [token] fields of the [agent_token] frames of one agent, joined in
    arrival order; a frame without [token] contributes nothing. *)
Definition token_of (id : string) (event : Event) : string :=
  match event with
  | agent_token id' token _ _ => if decide (id' = id) then default "" token else ""
  | _ => ""
  end.

Definition tokens_of (id : string) (events : list Event) : string :=
  foldr (λ event rest, token_of id event +:+ rest) "" events.

(** [output] of an agent, [None] when there is no record or no such field. *)
Definition output_of (id : string) (s : PipelineState) : option string :=
  agentMetrics s !! id ≫= AgentMetrics.output.

Definition is_pipeline_error (event : Event) : bool :=
  match event with
  | pipeline_error _ => true
  | _ => false
  end.

(** The test of the [catch] branch: [err instanceof Error && err.name ===
    "AbortError"]. *)
Definition is_abort (err : Thrown) : bool :=
  match err with
  | error_object name _ => String.eqb name "AbortError"
  | other_value _ => false
  end.

(** Whether the last frame among [stage_parallel], [pipeline_done] and
    [pipeline_error] received so far is a [stage_parallel]. *)
Definition stage_open_after (open : bool) (a : Action) : bool :=
  match a with
  | got_frame (stage_parallel _ _) => true
  | got_frame (pipeline_done _ _) => false
  | got_frame (pipeline_error _) => false
  | _ => open
  end.

Definition stage_open (trace : list Action) : bool :=
  foldl stage_open_after false trace.

(** The trace of a run started by [run()] and fed the given frames. *)
Definition run_then (events : list Event) : list Action :=
  call_run :: (got_frame <$> events).

(** ** Configuration *)

Definition set_prompt (v : string) (s : PipelineState) : PipelineState :=
  {| status := status s; prompt := v; agentMetrics := agentMetrics s;
     totalTokens := totalTokens s; totalMs := totalMs s; error := error s;
     useRealModels := useRealModels s; providerType := providerType s;
     providerStatus := providerStatus s; availableModels := availableModels s;
     selectedNode := selectedNode s; nodeConfigs := nodeConfigs s;
     activeParallelStage := activeParallelStage s |}.

Definition set_useRealModels (v : bool) (s : PipelineState) : PipelineState :=
  {| status := status s; prompt := prompt s; agentMetrics := agentMetrics s;
     totalTokens := totalTokens s; totalMs := totalMs s; error := error s;
     useRealModels := v; providerType := providerType s;
     providerStatus := providerStatus s; availableModels := availableModels s;
     selectedNode := selectedNode s; nodeConfigs := nodeConfigs s;
     activeParallelStage := activeParallelStage s |}.

Definition set_providerType (v : ProviderType) (s : PipelineState) : PipelineState :=
  {| status := status s; prompt := prompt s; agentMetrics := agentMetrics s;
     totalTokens := totalTokens s; totalMs := totalMs s; error := error s;
     useRealModels := useRealModels s; providerType := v;
     providerStatus := providerStatus s; availableModels := availableModels s;
     selectedNode := selectedNode s; nodeConfigs := nodeConfigs s;
     activeParallelStage := activeParallelStage s |}.

Definition set_selectedNode (v : option SelectedNodeInfo.t) (s : PipelineState)
  : PipelineState :=
  {| status := status s; prompt := prompt s; agentMetrics := agentMetrics s;
     totalTokens := totalTokens s; totalMs := totalMs s; error := error s;
     useRealModels := useRealModels s; providerType := providerType s;
     providerStatus := providerStatus s; availableModels := availableModels s;
     selectedNode := v; nodeConfigs := nodeConfigs s;
     activeParallelStage := activeParallelStage s |}.

Definition set_nodeConfigs (v : gmap string NodeConfig.t) (s : PipelineState)
  : PipelineState :=
  {| status := status s; prompt := prompt s; agentMetrics := agentMetrics s;
     totalTokens := totalTokens s; totalMs := totalMs s; error := error s;
     useRealModels := useRealModels s; providerType := providerType s;
     providerStatus := providerStatus s; availableModels := availableModels s;
     selectedNode := selectedNode s; nodeConfigs := v;
     activeParallelStage := activeParallelStage s |}.

(** The four plain setters of the context. *)
Definition setPrompt (p : string) : PipelineState → PipelineState := set_prompt p.
Definition setUseRealModels (v : bool) : PipelineState → PipelineState :=
  set_useRealModels v.
Definition setProviderType (p : ProviderType) : PipelineState → PipelineState :=
  set_providerType p.
Definition setSelectedNode (info : option SelectedNodeInfo.t)
  : PipelineState → PipelineState := set_selectedNode info.

(** [AGENT_TYPE_DEFAULTS] of agentDefaults.ts. *)
Definition AGENT_TYPE_DEFAULTS (type : AgentType) : NodeConfig.t :=
  match type with
  | router =>
      {| NodeConfig.provider := simulation;
         NodeConfig.modelId := "Qwen2.5-3B-Instruct";
         NodeConfig.systemPrompt :=
           "You are a task routing system. Analyze the user request briefly. " +:+
           "Classify the task type, estimate complexity, and state which specialist " +:+
           "agents (Coder, Analyzer) should handle it and why. Be concise (3-5 lines).";
         NodeConfig.maxTokens := 256%float;
         NodeConfig.temperature := 0.3%float;
         NodeConfig.tools := None |}
  | coder =>
      {| NodeConfig.provider := simulation;
         NodeConfig.modelId := "Qwen2.5-Coder-7B";
         NodeConfig.systemPrompt :=
           "You are an expert programmer. Generate clean, working code for the task. " +:+
           "Include type hints and brief comments. Keep the implementation concise.";
         NodeConfig.maxTokens := 1024%float;
         NodeConfig.temperature := 0.1%float;
         NodeConfig.tools := None |}
  | analyzer =>
      {| NodeConfig.provider := simulation;
         NodeConfig.modelId := "Gemma-3-4B-IT";
         NodeConfig.systemPrompt :=
           "You are a technical analyst. Review the task and any code provided. " +:+
           "Identify security issues, performance concerns, and give brief recommendations.";
         NodeConfig.maxTokens := 512%float;
         NodeConfig.temperature := 0.5%float;
         NodeConfig.tools := None |}
  | validator =>
      {| NodeConfig.provider := simulation;
         NodeConfig.modelId := "Phi-4-mini-4B";
         NodeConfig.systemPrompt :=
           "You are a code quality expert. Score the provided code out of 100 for " +:+
           "quality and security. List top 3 issues. Give a final verdict: APPROVED or NEEDS_REVISION.";
         NodeConfig.maxTokens := 512%float;
         NodeConfig.temperature := 0.2%float;
         NodeConfig.tools := None |}
  | synthesizer =>
      {| NodeConfig.provider := simulation;
         NodeConfig.modelId := "Llama-3.1-8B-Instruct";
         NodeConfig.systemPrompt :=
           "You are a technical writer. Synthesize the outputs from all agents into " +:+
           "a clear final summary. Include: implementation overview, quality score, " +:+
           "top recommendations. Be concise.";
         NodeConfig.maxTokens := 768%float;
         NodeConfig.temperature := 0.4%float;
         NodeConfig.tools := None |}
  | input =>
      {| NodeConfig.provider := simulation; NodeConfig.modelId := "user-query";
         NodeConfig.systemPrompt := ""; NodeConfig.maxTokens := 0%float;
         NodeConfig.temperature := 0%float; NodeConfig.tools := None |}
  | output =>
      {| NodeConfig.provider := simulation; NodeConfig.modelId := "result-stream";
         NodeConfig.systemPrompt := ""; NodeConfig.maxTokens := 0%float;
         NodeConfig.temperature := 0%float; NodeConfig.tools := None |}
  | custom =>
      {| NodeConfig.provider := simulation; NodeConfig.modelId := "";
         NodeConfig.systemPrompt := ""; NodeConfig.maxTokens := 512%float;
         NodeConfig.temperature := 0.7%float; NodeConfig.tools := None |}
  end.

Definition NODE_ID_TO_AGENT_TYPE : gmap string AgentType :=
  list_to_map
    [ ("input-1", input); ("router-1", router); ("coder-1", coder);
      ("analyzer-1", analyzer); ("validator-1", validator);
      ("synthesizer-1", synthesizer) ].

(** [agentType ?? NODE_ID_TO_AGENT_TYPE[nodeId] ?? "custom"], for a
    [nodeId] that names no member of [Object.prototype].  Under such a name
    the source's lookup finds the inherited member and spreads
    [AGENT_TYPE_DEFAULTS] at a key it does not have, which gives an empty
    object; a config without its mandatory fields has no place in
    [NodeConfig.t], and here those ids get the custom defaults. *)
Definition getDefaultConfig (nodeId : string) (agentType : option AgentType)
  : NodeConfig.t :=
  AGENT_TYPE_DEFAULTS
    (default custom (agentType ?? NODE_ID_TO_AGENT_TYPE !! nodeId)).

(** A [Partial<NodeConfig>]: [None] is a key the object does not have. *)
Module NodeConfigPatch.
Record t := mk {
  provider : option ProviderType;
  modelId : option string;
  systemPrompt : option string;
  maxTokens : option number;
  temperature : option number;
  tools : option Tools.t;
}.
End NodeConfigPatch.

(** [{ ...base, ...patch }]: a key of the patch replaces the whole field. *)
Definition spread_patch (base : NodeConfig.t) (patch : NodeConfigPatch.t)
  : NodeConfig.t :=
  {| NodeConfig.provider :=
       default (NodeConfig.provider base) (NodeConfigPatch.provider patch);
     NodeConfig.modelId :=
       default (NodeConfig.modelId base) (NodeConfigPatch.modelId patch);
     NodeConfig.systemPrompt :=
       default (NodeConfig.systemPrompt base) (NodeConfigPatch.systemPrompt patch);
     NodeConfig.maxTokens :=
       default (NodeConfig.maxTokens base) (NodeConfigPatch.maxTokens patch);
     NodeConfig.temperature :=
       default (NodeConfig.temperature base) (NodeConfigPatch.temperature patch);
     NodeConfig.tools := NodeConfigPatch.tools patch ?? NodeConfig.tools base |}.

(** [{ ...base, ...stored }] for a stored config that may be missing; a
    stored config has every mandatory key, and [tools] only if it was set. *)
Definition spread_config (base : NodeConfig.t) (stored : option NodeConfig.t)
  : NodeConfig.t :=
  match stored with
  | None => base
  | Some c =>
      {| NodeConfig.provider := NodeConfig.provider c;
         NodeConfig.modelId := NodeConfig.modelId c;
         NodeConfig.systemPrompt := NodeConfig.systemPrompt c;
         NodeConfig.maxTokens := NodeConfig.maxTokens c;
         NodeConfig.temperature := NodeConfig.temperature c;
         NodeConfig.tools := NodeConfig.tools c ?? NodeConfig.tools base |}
  end.

Definition setNodeConfig (nodeId : string) (patch : NodeConfigPatch.t)
  (s : PipelineState) : PipelineState :=
  set_nodeConfigs
    (<[nodeId := spread_patch
                   (spread_config (getDefaultConfig nodeId None)
                      (nodeConfigs s !! nodeId))
                   patch]> (nodeConfigs s)) s.

(** [agentType] is accepted and not used. *)
Definition resetNodeConfig (nodeId : string) (agentType : option AgentType)
  (s : PipelineState) : PipelineState :=
  set_nodeConfigs (delete nodeId (nodeConfigs s)) s.

(** The config the node panel shows and edits:
    [{ ...getDefaultConfig(nodeId, agentType), ...nodeConfigs[nodeId] }]. *)
Definition panelConfig (nodeId : string) (agentType : AgentType)
  (s : PipelineState) : NodeConfig.t :=
  spread_config (getDefaultConfig nodeId (Some agentType)) (nodeConfigs s !! nodeId).

(** [providerOnline] and [modelOptions] of the node panel. *)
Definition providerOnline (p : ProviderType) (s : PipelineState) : bool :=
  match p with
  | simulation => true
  | transformers => ProviderStatus.transformers (providerStatus s)
  | ollama => ProviderStatus.ollama (providerStatus s)
  | lmstudio => ProviderStatus.lmstudio (providerStatus s)
  | llamacpp => ProviderStatus.llamacpp (providerStatus s)
  end.

Definition modelOptions (provider : ProviderType) (s : PipelineState) : list string :=
  match provider with
  | ollama => default [] (availableModels s !! "ollama")
  | lmstudio => default [] (availableModels s !! "lmstudio")
  | _ => []
  end.

(** The node-config part of [handleLoad] in the load dialog: every loaded
    node is reset, then every loaded config is applied as a patch.
    [configs] is [Object.entries(data.node_configs)]. *)
Definition applyLoadedConfigs (configs : list (string * NodeConfigPatch.t))
  (s : PipelineState) : PipelineState :=
  foldl (λ acc entry, setNodeConfig entry.1 entry.2 acc)
    (foldl (λ acc entry, resetNodeConfig entry.1 None acc) s configs)
    configs.

(** ** The run request *)

Module ProviderBody.
Record t := mk { type : ProviderType; model_id : option string }.
End ProviderBody.

Module AgentConfigBody.
Record t := mk {
  agent_id : string;
  provider : ProviderBody.t;
  system_prompt : option string;
  max_tokens : number;
  temperature : number;
  tools : option (list string);
}.
End AgentConfigBody.

Module DefaultProvider.
Record t := mk { type : ProviderType }.
End DefaultProvider.

Module RunBody.
Record t := mk {
  prompt : string;
  use_real_models : bool;
  default_provider : DefaultProvider.t;
  agent_configs : option (list AgentConfigBody.t);
}.
End RunBody.

(** [s || undefined] on a string: the empty string is falsy. *)
Definition nonempty (s : string) : option string :=
  match s with
  | EmptyString => None
  | _ => Some s
  end.

(** One entry of [agent_configs]. *)
Definition agentConfig (agentId : string) (cfg : NodeConfig.t) : AgentConfigBody.t :=
  let activeTools : list string :=
    match NodeConfig.tools cfg ≫= Tools.web_search with
    | Some true => ["web_search"]
    | _ => []
    end in
  {| AgentConfigBody.agent_id := agentId;
     AgentConfigBody.provider :=
       {| ProviderBody.type := NodeConfig.provider cfg;
          ProviderBody.model_id := nonempty (NodeConfig.modelId cfg) |};
     AgentConfigBody.system_prompt := nonempty (NodeConfig.systemPrompt cfg);
     AgentConfigBody.max_tokens := NodeConfig.maxTokens cfg;
     AgentConfigBody.temperature := NodeConfig.temperature cfg;
     AgentConfigBody.tools :=
       match activeTools with
       | [] => None
       | _ => Some activeTools
       end |}.

(** [Object.entries(state.nodeConfigs).map(...)].  The entries come in the
    enumeration order of the map; the source enumerates in insertion order,
    which a finite map does not record. *)
Definition agentConfigs (s : PipelineState) : list AgentConfigBody.t :=
  (λ entry, agentConfig entry.1 entry.2) <$> map_to_list (nodeConfigs s).

(** The object [run] serialises as the body of [POST /api/run]. *)
Definition runBody (s : PipelineState) : RunBody.t :=
  {| RunBody.prompt := prompt s;
     RunBody.use_real_models := useRealModels s;
     RunBody.default_provider := {| DefaultProvider.type := providerType s |};
     RunBody.agent_configs :=
       match agentConfigs s with
       | [] => None
       | configs => Some configs
       end |}.

(** ** The stream reader *)

(** The text of the response body is a string of bytes; the byte 10 is the
    newline the loop splits on and occurs in no longer character. *)
Definition newline : Ascii.ascii :=
  Ascii.Ascii false true false true false false false false.

(** [s.split("\n")]: never empty, the last piece is what follows the last
    newline. *)
Fixpoint split_newline (s : string) : list string :=
  match s with
  | EmptyString => [""]
  | String c rest =>
      if Ascii.eqb c newline then "" :: split_newline rest
      else match split_newline rest with
           | first :: others => String c first :: others
           | [] => [String c ""]
           end
  end.

(** [lines.pop()]: the array without its last element, and that element. *)
Definition pop (lines : list string) : list string * option string :=
  (removelast lines, last lines).

(** [line.slice(n)]. *)
Fixpoint slice_from (n : nat) (line : string) : string :=
  match n, line with
  | S n', String _ rest => slice_from n' rest
  | _, _ => line
  end.

Section Reader.
(** [String.prototype.trim] and [JSON.parse] are the platform's.  [parse]
    gives [None] where [JSON.parse], or [handleEvent] on its result,
    throws. *)
Variable trim : string → string.
Variable parse : string → option Event.

(** The [raw] payload of a line, if the loop gets to parse it. *)
Definition payload_of (line : string) : option string :=
  if String.prefix "data: " line then nonempty (trim (slice_from 6 line))
  else None.

(** The body of [for (const line of lines)]. *)
Definition on_line (s : PipelineState) (line : string) : PipelineState :=
  match payload_of line ≫= parse with
  | Some event => handleEvent event s
  | None => s
  end.

(** One turn of the [while] loop with a chunk that was read: the local
    [buffer] and the state. *)
Definition on_chunk (loop : string * PipelineState) (chunk : string)
  : string * PipelineState :=
  let '(lines, rest) := pop (split_newline (loop.1 +:+ chunk)) in
  (default "" rest, foldl on_line loop.2 lines).

(** The whole loop over the chunks read before [done]. *)
Definition read_stream (chunks : list string) (s : PipelineState)
  : string * PipelineState :=
  foldl on_chunk ("", s) chunks.
End Reader.

(** The text of a stream: its chunks joined. *)
Definition stream_text (chunks : list string) : string :=
  foldr String.append "" chunks.

Definition has_newline (s : string) : bool :=
  existsb (λ c, Ascii.eqb c newline) (String.list_ascii_of_string s).

(** ** What the canvas and the metrics panel derive from the state *)

Module Edge.
Record t := mk { source : string; target : string }.
End Edge.

Definition is_done (m : option AgentMetrics.t) : bool :=
  match m ≫= AgentMetrics.status with
  | Some AgentStatus.done => true
  | _ => false
  end.

Definition is_running (m : option AgentMetrics.t) : bool :=
  match m ≫= AgentMetrics.status with
  | Some AgentStatus.running => true
  | _ => false
  end.

(** [isGlowing] of the edge effect of the canvas. *)
Definition isGlowing (metrics : gmap string AgentMetrics.t) (edge : Edge.t) : bool :=
  let sourceDone := is_done (metrics !! Edge.source edge) in
  let sourceRunning := is_running (metrics !! Edge.source edge) in
  let targetRunning := is_running (metrics !! Edge.target edge) in
  (sourceDone && targetRunning) || sourceRunning.

(** [Object.values(agentMetrics).filter((m) => m.status === st).length]. *)
Definition count_status (st : option AgentMetrics.t → bool)
  (metrics : gmap string AgentMetrics.t) : nat :=
  length (filter (λ m, st (Some m)) (map_to_list metrics).*2).

Definition activeAgentCount (s : PipelineState) : nat :=
  count_status is_running (agentMetrics s).

Definition doneCount (s : PipelineState) : nat :=
  count_status is_done (agentMetrics s).

(** ** More vocabulary *)

(** The agent a frame is about. *)
Definition agent_of (event : Event) : option string :=
  match event with
  | agent_start id _ | agent_token id _ _ _ | agent_vram id _
  | agent_done id _ _ _ _ _ => Some id
  | _ => None
  end.

(** The agent a frame can create a record for: [agent_start] and
    [agent_token] for any id, [agent_vram] and [agent_done] only where their
    guard meets a member inherited from [Object.prototype]. *)
Definition created_by (event : Event) : list string :=
  match event with
  | agent_start id _ | agent_token id _ _ _ => [id]
  | agent_vram id _ | agent_done id _ _ _ _ _ =>
      if bool_decide (id ∈ OBJECT_PROTOTYPE_KEYS) then [id] else []
  | _ => []
  end.

Definition is_reset (a : Action) : bool :=
  match a with
  | call_reset => true
  | _ => false
  end.

(** A poll that brings nothing: both requests fail. *)
Definition brings_nothing (a : Action) : bool :=
  match a with
  | got_poll provRes modRes => request_failed provRes && request_failed modRes
  | _ => true
  end.

(** The four counters and the output of a record are all there. *)
Definition complete (m : AgentMetrics.t) : bool :=
  bool_decide (is_Some (AgentMetrics.tokens m)) &&
  bool_decide (is_Some (AgentMetrics.tokensPerSec m)) &&
  bool_decide (is_Some (AgentMetrics.latencyMs m)) &&
  bool_decide (is_Some (AgentMetrics.output m)).

(** [{ ...p1, ...p2 }] on patches. *)
Definition merge_patch (p1 p2 : NodeConfigPatch.t) : NodeConfigPatch.t :=
  {| NodeConfigPatch.provider :=
       NodeConfigPatch.provider p2 ?? NodeConfigPatch.provider p1;
     NodeConfigPatch.modelId :=
       NodeConfigPatch.modelId p2 ?? NodeConfigPatch.modelId p1;
     NodeConfigPatch.systemPrompt :=
       NodeConfigPatch.systemPrompt p2 ?? NodeConfigPatch.systemPrompt p1;
     NodeConfigPatch.maxTokens :=
       NodeConfigPatch.maxTokens p2 ?? NodeConfigPatch.maxTokens p1;
     NodeConfigPatch.temperature :=
       NodeConfigPatch.temperature p2 ?? NodeConfigPatch.temperature p1;
     NodeConfigPatch.tools :=
       NodeConfigPatch.tools p2 ?? NodeConfigPatch.tools p1 |}.

(** Who may write [error]: [run], [reset], a [pipeline_error] frame, a value
    thrown that is not an abort, and a response that is not ok or whose
    body is [null]. *)
Definition may_write_error (a : Action) : bool :=
  match a with
  | call_run | call_reset => true
  | got_frame event => is_pipeline_error event
  | got_thrown err => negb (is_abort err)
  | got_response ok _ body =>
      negb ok || match body with null_body _ => true | stream_body => false end
  | _ => false
  end.

(** The lines a buffer hands to the loop, and what it keeps for the next
    turn: the two halves of [lines.pop()] on the split buffer. *)
Definition complete_lines (text : string) : list string :=
  (pop (split_newline text)).1.

Definition pending (text : string) : string :=
  default "" (pop (split_newline text)).2.

(** Lines put back together, each followed by its newline, before [rest]. *)
Definition join_lines (lines : list string) (rest : string) : string :=
  foldr (λ line acc, line +:+ String newline acc) rest lines.

(** An event on the wire: ["data: <json>\n\n"], for a serialisation [enc]. *)
Definition frame_text (enc : Event → string) (event : Event) : string :=
  "data: " +:+ enc event +:+ String newline (String newline "").

(** * Properties *)

(** ** Basic facts about the defaults and the handler *)

(** Case analysis on a frame, and on the record its handler looks up. *)
Ltac case_frame event :=
  destruct event; cbn; unfold on_agent_vram, on_agent_done;
  repeat match goal with
    | |- context [match get_metrics ?m ?id with _ => _ end] =>
        destruct (get_metrics m id)
    end;
  cbn.

Lemma defaultMetrics_lookup (id : string) :
  defaultMetrics !! id =
    if bool_decide (id ∈ DEFAULT_AGENT_IDS) then Some idleMetrics else None.
Proof.
  unfold defaultMetrics, DEFAULT_AGENT_IDS. cbn [fmap list_fmap list_to_map foldr].
  case_bool_decide as Hin.
  - repeat (apply elem_of_cons in Hin as [->|Hin]; [by simplify_map_eq|]).
    by apply elem_of_nil in Hin.
  - repeat (rewrite lookup_insert_ne; [|intros <-; apply Hin; set_solver]).
    apply lookup_empty.
Qed.

(** The three outcomes of [metrics[id]]. *)
Lemma get_metrics_own (metrics : gmap string AgentMetrics.t) (id : string)
  (m : AgentMetrics.t) :
  metrics !! id = Some m → get_metrics metrics id = Some m.
Proof. intros Hm. unfold get_metrics. by rewrite Hm. Qed.

Lemma get_metrics_undefined (metrics : gmap string AgentMetrics.t) (id : string) :
  metrics !! id = None → id ∉ OBJECT_PROTOTYPE_KEYS →
  get_metrics metrics id = None.
Proof.
  intros Hm Hproto. unfold get_metrics. rewrite Hm.
  by rewrite bool_decide_eq_false_2.
Qed.

Lemma get_metrics_Some (metrics : gmap string AgentMetrics.t) (id : string)
  (m : AgentMetrics.t) :
  get_metrics metrics id = Some m →
  metrics !! id = Some m ∨ id ∈ OBJECT_PROTOTYPE_KEYS.
Proof.
  unfold get_metrics. destruct (metrics !! id); [intros [= ->]; by left|].
  case_bool_decide; [by right|done].
Qed.

(** A frame leaves the configuration and the discovery fields alone. *)
Lemma handleEvent_keeps_configuration (event : Event) (s : PipelineState) :
  let s' := handleEvent event s in
  prompt s' = prompt s ∧ useRealModels s' = useRealModels s ∧
  providerType s' = providerType s ∧ providerStatus s' = providerStatus s ∧
  availableModels s' = availableModels s ∧ selectedNode s' = selectedNode s ∧
  nodeConfigs s' = nodeConfigs s.
Proof. case_frame event; auto 10. Qed.

(** ** The end-to-end scenario *)

(** C1.  After [run()] from the initial state, the four frames of the
    end-to-end scenario ([agent_start], [agent_token] "Hi", [agent_done],
    [pipeline_done], all for "router-1") leave the pipeline [done], the
    router's record at [{done, 1, 5, 120, 2.1, "Hi"}] and the totals at
    1 token and 120 ms. *)
Theorem end_to_end_scenario :
  let s := handleEvents scenario_events (state (run initialSession)) in
  status s = PipelineStatus.done ∧
  agentMetrics s !! "router-1" =
    Some {| AgentMetrics.status := Some AgentStatus.done;
            AgentMetrics.tokens := Some 1%float;
            AgentMetrics.tokensPerSec := Some 5%float;
            AgentMetrics.latencyMs := Some 120%float;
            AgentMetrics.vramGb := Some 2.1%float;
            AgentMetrics.output := Some "Hi";
            AgentMetrics.provider := Some simulation |} ∧
  totalTokens s = 1%float ∧
  totalMs s = 120%float.
Proof. repeat split; vm_compute; reflexivity. Qed.

(** ** [pipeline_error] *)

(** C5.  A [pipeline_error] frame with message [m] applied while running
    stops the pipeline, stores [m] as the error and clears the parallel
    stage. *)
Theorem pipeline_error_stops (s : PipelineState) (m : string) :
  status s = PipelineStatus.running →
  let s' := handleEvent (pipeline_error (Some m)) s in
  status s' = PipelineStatus.stopped ∧
  error s' = Some m ∧
  activeParallelStage s' = None.
Proof. intros _. cbn. auto. Qed.

Lemma pipeline_error_stops_witness :
  let s :=
    handleEvent (stage_parallel (Some 1%float) (Some ["coder-1"; "analyzer-1"]))
      (state (run initialSession)) in
  let s' := handleEvent (pipeline_error (Some "model unavailable")) s in
  status s = PipelineStatus.running ∧
  is_Some (activeParallelStage s) ∧
  status s' = PipelineStatus.stopped ∧
  error s' = Some "model unavailable" ∧
  activeParallelStage s' = None.
Proof.
  split; [reflexivity|]. split; [eexists; reflexivity|].
  apply (pipeline_error_stops
           (handleEvent (stage_parallel (Some 1%float) (Some ["coder-1"; "analyzer-1"]))
              (state (run initialSession)))
           "model unavailable").
  reflexivity.
Defined.

(** ** [run] *)

(** C6.  Whatever the session was, [run()] has set the state to [running]
    before its first suspension: [agentMetrics] is exactly the five idle
    default records, the totals are zero and the error is cleared. *)
Theorem run_resets_synchronously (x : Session) :
  let s := state (run x) in
  status s = PipelineStatus.running ∧
  agentMetrics s = defaultMetrics ∧
  (∀ id : string,
     agentMetrics s !! id =
       if bool_decide (id ∈ DEFAULT_AGENT_IDS)
       then Some {| AgentMetrics.status := Some AgentStatus.idle;
                    AgentMetrics.tokens := Some 0%float;
                    AgentMetrics.tokensPerSec := Some 0%float;
                    AgentMetrics.latencyMs := Some 0%float;
                    AgentMetrics.vramGb := Some 0%float;
                    AgentMetrics.output := Some "";
                    AgentMetrics.provider := Some simulation |}
       else None) ∧
  totalTokens s = 0%float ∧
  totalMs s = 0%float ∧
  error s = None.
Proof.
  cbn. repeat split. intros id. apply defaultMetrics_lookup.
Qed.

(** ** [agent_vram] for an unknown agent *)

(** Where [s.agentMetrics[id]] is [undefined], an [agent_vram] frame returns
    the state it was given. *)
Lemma agent_vram_undefined_is_noop (s : PipelineState) (id : string)
  (vramGb : option number) :
  agentMetrics s !! id = None → id ∉ OBJECT_PROTOTYPE_KEYS →
  handleEvent (agent_vram id vramGb) s = s.
Proof.
  intros Hnone Hproto. cbn. unfold on_agent_vram.
  by rewrite get_metrics_undefined.
Qed.

(** C8.  The no-op breaks for an agent id that is absent from
    [agentMetrics] but names a member of [Object.prototype]: the guard
    [if (!prev) return s] sees the inherited member, and the frame adds a
    record that holds nothing but [vramGb]. *)
Theorem agent_vram_inherited_member_adds_record :
  let s := state (run initialSession) in
  let s' := handleEvent (agent_vram "constructor" (Some 3.5%float)) s in
  agentMetrics s !! "constructor" = None ∧
  agentMetrics s' !! "constructor" =
    Some {| AgentMetrics.status := None;
            AgentMetrics.tokens := None;
            AgentMetrics.tokensPerSec := None;
            AgentMetrics.latencyMs := None;
            AgentMetrics.vramGb := Some 3.5%float;
            AgentMetrics.output := None;
            AgentMetrics.provider := None |} ∧
  s' ≠ s.
Proof.
  cbn zeta. split; [reflexivity|]. split; [reflexivity|].
  intros Hsame.
  apply (f_equal (λ t, agentMetrics t !! "constructor")) in Hsame.
  discriminate Hsame.
Qed.

(** ** [reset] *)

(** C9.  A second [reset()] changes nothing, refs included; after a reset
    the pipeline is idle with default metrics, zero totals, no error and no
    active transport. *)
Theorem reset_idempotent (x : Session) :
  reset (reset x) = reset x ∧
  status (state (reset x)) = PipelineStatus.idle ∧
  agentMetrics (state (reset x)) = defaultMetrics ∧
  totalTokens (state (reset x)) = 0%float ∧
  totalMs (state (reset x)) = 0%float ∧
  error (state (reset x)) = None ∧
  transport_active (reset x) = false.
Proof.
  destruct x as [s [c|] [r|]]; repeat split.
Qed.

(** ** Token accumulation *)

Lemma string_app_nil_r (a : string) : a +:+ "" = a.
Proof.
  induction a as [|ch a IH]; [done|].
  change (String ch (a +:+ "") = String ch a). by f_equal.
Qed.

Lemma string_app_assoc (a b c : string) : (a +:+ b) +:+ c = a +:+ b +:+ c.
Proof.
  induction a as [|ch a IH]; [done|].
  change (String ch ((a +:+ b) +:+ c) = String ch (a +:+ b +:+ c)). by f_equal.
Qed.

(** One frame appends its own token, and nothing else, to an output that
    is there. *)
Lemma handleEvent_output (event : Event) (s : PipelineState) (id o : string) :
  output_of id s = Some o →
  output_of id (handleEvent event s) = Some (o +:+ token_of id event).
Proof.
  unfold output_of. intros Hout.
  destruct (agentMetrics s !! id) as [m|] eqn:Hm; [|done]. cbn in Hout.
  pose proof (get_metrics_own _ _ _ Hm) as Hget.
  destruct event as [id' p|id' tok tt tps|id' v|id' tt tps lat v p| | | |];
    cbn -[String.append]; rewrite ?string_app_nil_r;
    try (by rewrite Hm).
  - unfold on_agent_start. cbn. destruct (decide (id' = id)) as [->|Hne].
    + by rewrite lookup_insert_eq, Hget.
    + by rewrite lookup_insert_ne, Hm.
  - unfold on_agent_token. cbn -[String.append].
    destruct (decide (id' = id)) as [->|Hne].
    + rewrite lookup_insert_eq, Hget. cbn -[String.append]. by rewrite Hout.
    + by rewrite lookup_insert_ne, Hm, ?string_app_nil_r.
  - unfold on_agent_vram.
    destruct (get_metrics (agentMetrics s) id') as [prev|] eqn:Hprev; cbn;
      [|by rewrite Hm].
    destruct (decide (id' = id)) as [->|Hne].
    + rewrite lookup_insert_eq. cbn. congruence.
    + by rewrite lookup_insert_ne, Hm.
  - unfold on_agent_done.
    destruct (get_metrics (agentMetrics s) id') as [prev|] eqn:Hprev; cbn;
      [|by rewrite Hm].
    destruct (decide (id' = id)) as [->|Hne].
    + rewrite lookup_insert_eq. cbn. congruence.
    + by rewrite lookup_insert_ne, Hm.
Qed.

(** For an agent whose record carries an output, the frames append exactly
    its tokens, in arrival order. *)
Lemma output_is_concatenation (events : list Event) (s : PipelineState)
  (id o : string) :
  output_of id s = Some o →
  output_of id (handleEvents events s) = Some (o +:+ tokens_of id events).
Proof.
  revert s o. induction events as [|event events IH]; intros s o Hout.
  - cbn. by rewrite string_app_nil_r.
  - change (handleEvents (event :: events) s)
      with (handleEvents events (handleEvent event s)).
    rewrite (IH _ _ (handleEvent_output event s id o Hout)).
    cbn -[String.append]. by rewrite string_app_assoc.
Qed.

(** In particular for the five default agents after [run()]. *)
Lemma default_agent_output (events : list Event) (x : Session) (id : string) :
  id ∈ DEFAULT_AGENT_IDS →
  output_of id (handleEvents events (state (run x))) = Some (tokens_of id events).
Proof.
  intros Hin.
  rewrite (output_is_concatenation events (state (run x)) id ""); [done|].
  unfold output_of. cbn. rewrite defaultMetrics_lookup.
  by rewrite bool_decide_eq_true_2.
Qed.

(** [totalTokens] and [tokensPerSec] of a token frame replace the stored
    values; an absent one keeps what was there. *)
Lemma agent_token_replaces (s : PipelineState) (id : string)
  (token : option string) (totalTokens tokensPerSec : option number) :
  let prev := default freshMetrics (get_metrics (agentMetrics s) id) in
  let s' := handleEvent (agent_token id token totalTokens tokensPerSec) s in
  (AgentMetrics.tokens <$> agentMetrics s' !! id) =
    Some (totalTokens ?? AgentMetrics.tokens prev) ∧
  (AgentMetrics.tokensPerSec <$> agentMetrics s' !! id) =
    Some (tokensPerSec ?? AgentMetrics.tokensPerSec prev).
Proof. cbn. unfold on_agent_token. cbn. by rewrite lookup_insert_eq. Qed.

(** C2.  The ordering property (the output of an agent is the concatenation
    of its tokens) breaks for an agent outside the defaults that is started
    before its first token: [agent_start] stores a record without [output],
    and the first [agent_token] then prepends the text of [undefined].  The
    output is "undefinedHi" where the tokens concatenate to "Hi". *)
Theorem output_after_start_of_new_agent :
  let id := "coder-1730000000000-101" in
  let events :=
    [ agent_start id None;
      agent_token id (Some "Hi") (Some 1%float) (Some 5%float) ] in
  let s := handleEvents events (state (run initialSession)) in
  tokens_of id events = "Hi" ∧
  output_of id (handleEvent (agent_start id None) (state (run initialSession))) = None ∧
  output_of id s = Some "undefinedHi".
Proof. repeat split; vm_compute; reflexivity. Qed.

(** ** Frames for an agent without a record *)

(** An [agent_token] frame always leaves a record under its id. *)
Lemma agent_token_keys (s : PipelineState) (id : string) (token : option string)
  (totalTokens tokensPerSec : option number) :
  dom (agentMetrics (handleEvent (agent_token id token totalTokens tokensPerSec) s))
  = {[id]} ∪ dom (agentMetrics s).
Proof. cbn. unfold on_agent_token. cbn. apply dom_insert_L. Qed.

(** With a record already there the key set stays as it is. *)
Lemma agent_token_known_keeps_keys (s : PipelineState) (id : string)
  (token : option string) (totalTokens tokensPerSec : option number) :
  is_Some (agentMetrics s !! id) →
  dom (agentMetrics (handleEvent (agent_token id token totalTokens tokensPerSec) s))
  = dom (agentMetrics s).
Proof.
  intros Hsome. rewrite agent_token_keys.
  by apply subseteq_union_1_L, singleton_subseteq_l, elem_of_dom.
Qed.

(** C3, as amended.  For an agent id that has no record and names no
    member of [Object.prototype], [agent_vram] returns the state unchanged,
    while [agent_token] adds one record under that id: the fresh running
    record with the frame's counters and its token as output.  The key set
    grows by exactly that id. *)
Theorem unknown_agent_vram_and_token (s : PipelineState) (id : string) :
  agentMetrics s !! id = None →
  id ∉ OBJECT_PROTOTYPE_KEYS →
  (∀ vramGb, handleEvent (agent_vram id vramGb) s = s) ∧
  (∀ token totalTokens tokensPerSec,
     let s' := handleEvent (agent_token id token totalTokens tokensPerSec) s in
     agentMetrics s' =
       (<[id := {| AgentMetrics.status := Some AgentStatus.running;
                   AgentMetrics.tokens := totalTokens ?? Some 0%float;
                   AgentMetrics.tokensPerSec := tokensPerSec ?? Some 0%float;
                   AgentMetrics.latencyMs := Some 0%float;
                   AgentMetrics.vramGb := Some 0%float;
                   AgentMetrics.output := Some (default "" token);
                   AgentMetrics.provider := Some simulation |}]> (agentMetrics s)) ∧
     (id ∉ dom (agentMetrics s)) ∧
     dom (agentMetrics s') = {[id]} ∪ dom (agentMetrics s)).
Proof.
  intros Hnone Hproto. split.
  - intros v. by apply agent_vram_undefined_is_noop.
  - intros token tt tps. cbn zeta. split; [|split].
    + cbn. unfold on_agent_token. by rewrite get_metrics_undefined.
    + by apply not_elem_of_dom.
    + apply agent_token_keys.
Qed.

Lemma unknown_agent_vram_and_token_witness :
  let s := state (run initialSession) in
  let id := "coder-1730000000000-101" in
  agentMetrics s !! id = None ∧
  (id ∉ OBJECT_PROTOTYPE_KEYS) ∧
  handleEvent (agent_vram id (Some 3.5%float)) s = s ∧
  agentMetrics (handleEvent (agent_token id (Some "Hi") (Some 1%float) None) s) !! id =
    Some {| AgentMetrics.status := Some AgentStatus.running;
            AgentMetrics.tokens := Some 1%float;
            AgentMetrics.tokensPerSec := Some 0%float;
            AgentMetrics.latencyMs := Some 0%float;
            AgentMetrics.vramGb := Some 0%float;
            AgentMetrics.output := Some "Hi";
            AgentMetrics.provider := Some simulation |}.
Proof.
  cbn zeta.
  assert (Hproto : "coder-1730000000000-101" ∉ OBJECT_PROTOTYPE_KEYS).
  { unfold OBJECT_PROTOTYPE_KEYS. rewrite !not_elem_of_cons.
    repeat split; try discriminate. apply not_elem_of_nil. }
  split; [reflexivity|]. split; [exact Hproto|].
  destruct (unknown_agent_vram_and_token (state (run initialSession))
              "coder-1730000000000-101" eq_refl Hproto) as [Hvram Htoken].
  split; [apply Hvram|].
  destruct (Htoken (Some "Hi") (Some 1%float) None) as [-> _].
  apply lookup_insert_eq.
Defined.

(** C3, counterexample to the unamended statement: a token frame for an
    agent without a record adds an entry, so the key set changes. *)
Lemma agent_token_creates_entry :
  let s := state (run initialSession) in
  let id := "coder-1730000000000-101" in
  let s' := handleEvent (agent_token id (Some "Hi") (Some 1%float) (Some 5%float)) s in
  agentMetrics s !! id = None ∧
  agentMetrics s' !! id =
    Some {| AgentMetrics.status := Some AgentStatus.running;
            AgentMetrics.tokens := Some 1%float;
            AgentMetrics.tokensPerSec := Some 5%float;
            AgentMetrics.latencyMs := Some 0%float;
            AgentMetrics.vramGb := Some 0%float;
            AgentMetrics.output := Some "Hi";
            AgentMetrics.provider := Some simulation |} ∧
  dom (agentMetrics s') ≠ dom (agentMetrics s).
Proof.
  cbn zeta. split; [reflexivity|]. split; [reflexivity|].
  intros Hdom.
  assert (Hin : "coder-1730000000000-101" ∈ dom (agentMetrics (state (run initialSession)))).
  { rewrite <- Hdom, agent_token_keys. set_solver. }
  apply elem_of_dom in Hin as [m Hm]. discriminate Hm.
Qed.

(** ** Cancellation *)

Lemma exec_frames (events : list Event) (x : Session) :
  exec (got_frame <$> events) x = on_state (handleEvents events) x.
Proof.
  revert x. induction events as [|event events IH]; intros x.
  - by destruct x.
  - change (exec (got_frame <$> event :: events) x)
      with (exec (got_frame <$> events) (step x (got_frame event))).
    by rewrite IH.
Qed.

(** Only [pipeline_error] writes [error]. *)
Lemma handleEvent_error (event : Event) (s : PipelineState) :
  is_pipeline_error event = false →
  error (handleEvent event s) = error s.
Proof. case_frame event; done. Qed.

Lemma handleEvents_error (events : list Event) (s : PipelineState) :
  Forall (λ event, is_pipeline_error event = false) events →
  error (handleEvents events s) = error s.
Proof.
  intros Hall. revert s.
  induction Hall as [|event events Hevent _ IH]; intros s; [done|].
  change (handleEvents (event :: events) s)
    with (handleEvents events (handleEvent event s)).
  by rewrite IH, handleEvent_error.
Qed.

(** What the [catch] branch of [run] does with each thrown value. *)
Lemma run_catch_cases (err : Thrown) (s : PipelineState) :
  if is_abort err then run_catch err s = s
  else status (run_catch err s) = PipelineStatus.stopped ∧
       is_Some (error (run_catch err s)).
Proof.
  destruct err as [name message|text]; cbn.
  - destruct (String.eqb name "AbortError"); [done|]. cbn. eauto.
  - eauto.
Qed.

(** C4.  After [run()] and any frames other than [pipeline_error], with the
    pipeline still running, [stop()] leaves it stopped with no error and no
    active transport; the abort it raises passes through the [catch] branch
    of [run] without a trace.  A transport failure and a [pipeline_error]
    frame both set [error], so [error == null] tells the stop apart. *)
Theorem stop_is_silent (x0 : Session) (events : list Event) :
  Forall (λ event, is_pipeline_error event = false) events →
  status (state (exec (run_then events) x0)) = PipelineStatus.running →
  let x := stop (exec (run_then events) x0) in
  status (state x) = PipelineStatus.stopped ∧
  error (state x) = None ∧
  transport_active x = false ∧
  step x (got_thrown AbortError) = x ∧
  (∀ (err : Thrown) (s : PipelineState),
     if is_abort err then run_catch err s = s
     else is_Some (error (run_catch err s))) ∧
  (∀ (message : option string) (s : PipelineState),
     is_Some (error (handleEvent (pipeline_error message) s))).
Proof.
  intros Hevents _. unfold run_then.
  change (exec (call_run :: (got_frame <$> events)) x0)
    with (exec (got_frame <$> events) (run x0)).
  rewrite exec_frames. cbn zeta.
  split; [reflexivity|]. split; [|split; [reflexivity|split; [reflexivity|split]]].
  - cbn. by rewrite handleEvents_error.
  - intros err s. pose proof (run_catch_cases err s) as Hcases.
    destruct (is_abort err); [done|]. apply Hcases.
  - intros message s. cbn. eauto.
Qed.

Lemma stop_is_silent_witness :
  let events :=
    [ agent_start "router-1" None;
      agent_token "router-1" (Some "Hi") (Some 1%float) (Some 5%float) ] in
  let x := exec (run_then events) initialSession in
  Forall (λ event, is_pipeline_error event = false) events ∧
  status (state x) = PipelineStatus.running ∧
  transport_active x = true ∧
  status (state (stop x)) = PipelineStatus.stopped ∧
  error (state (stop x)) = None ∧
  transport_active (stop x) = false.
Proof.
  cbn zeta.
  assert (Hevents :
    Forall (λ event, is_pipeline_error event = false)
      [ agent_start "router-1" None;
        agent_token "router-1" (Some "Hi") (Some 1%float) (Some 5%float) ])
    by (repeat constructor).
  split; [exact Hevents|]. split; [reflexivity|]. split; [reflexivity|].
  destruct (stop_is_silent initialSession _ Hevents eq_refl)
    as (Hstatus & Herror & Htransport & _).
  auto.
Defined.

(** ** The parallel stage *)

Lemma fetchStatus_activeParallelStage (provRes : Fetched ProvData)
  (modRes : Fetched ModData) (s : PipelineState) :
  activeParallelStage (fetchStatus provRes modRes s) = activeParallelStage s.
Proof.
  destruct provRes as [?|[] [[|?]|]], modRes as [?|[] [[|?]|]]; reflexivity.
Qed.

Lemma run_catch_activeParallelStage (err : Thrown) (s : PipelineState) :
  activeParallelStage (run_catch err s) = activeParallelStage s.
Proof.
  destruct err as [name message|text]; cbn; [|done].
  by destruct (String.eqb name "AbortError").
Qed.

(** No controller call touches the stage; among the frames only
    [stage_parallel] sets it and only [pipeline_done] and [pipeline_error]
    clear it. *)
Lemma step_activeParallelStage (x : Session) (a : Action) :
  activeParallelStage (state (step x a)) =
    match a with
    | got_frame (stage_parallel stageIndex agentIds) =>
        Some {| ParallelStageInfo.stageIndex := stageIndex;
                ParallelStageInfo.agentIds := agentIds |}
    | got_frame (pipeline_done _ _) | got_frame (pipeline_error _) => None
    | _ => activeParallelStage (state x)
    end.
Proof.
  destruct a as [| | |ok code body|event|err|provRes modRes]; cbn; try done.
  - by destruct ok, body.
  - case_frame event; done.
  - apply run_catch_activeParallelStage.
  - apply fetchStatus_activeParallelStage.
Qed.

Lemma exec_stage_open (trace : list Action) (x : Session) (open : bool) :
  (is_Some (activeParallelStage (state x)) ↔ open = true) →
  is_Some (activeParallelStage (state (exec trace x)))
  ↔ foldl stage_open_after open trace = true.
Proof.
  revert x open. induction trace as [|a trace IH]; intros x open Hopen; [done|].
  cbn. apply IH. rewrite step_activeParallelStage.
  destruct a as [| | |ok code body|[]|err|provRes modRes]; cbn; done.
Qed.

(** In every reachable state the stage is set exactly when the last of the
    frames [stage_parallel], [pipeline_done], [pipeline_error] received so
    far is a [stage_parallel]. *)
Lemma activeParallelStage_follows_frames (trace : list Action) :
  is_Some (activeParallelStage (state (exec trace initialSession)))
  ↔ stage_open trace = true.
Proof. apply exec_stage_open. split; [by intros []|done]. Qed.

(** C7.  The stage invariant breaks on the controller calls: a stage set by
    [stage_parallel] is still there in the states produced by [stop()], by
    [reset()] and by the next [run()], where the specification wants it
    null. *)
Theorem parallel_stage_survives_controller_calls :
  let stage :=
    Some {| ParallelStageInfo.stageIndex := Some 1%float;
            ParallelStageInfo.agentIds := Some ["coder-1"; "analyzer-1"] |} in
  let x :=
    exec [ call_run;
           got_frame (stage_parallel (Some 1%float) (Some ["coder-1"; "analyzer-1"])) ]
      initialSession in
  activeParallelStage (state (stop x)) = stage ∧
  status (state (stop x)) = PipelineStatus.stopped ∧
  activeParallelStage (state (reset x)) = stage ∧
  status (state (reset x)) = PipelineStatus.idle ∧
  activeParallelStage (state (run (stop x))) = stage ∧
  activeParallelStage (state (run (reset x))) = stage.
Proof. repeat split. Qed.

(** ** Discovery poll *)

(** A poll never writes a run-state field. *)
Lemma poll_keeps_run_state (provRes : Fetched ProvData) (modRes : Fetched ModData)
  (s : PipelineState) :
  let s' := fetchStatus provRes modRes s in
  status s' = status s ∧ agentMetrics s' = agentMetrics s ∧
  totalTokens s' = totalTokens s ∧ totalMs s' = totalMs s ∧ error s' = error s.
Proof.
  destruct provRes as [?|[] [[|?]|]], modRes as [?|[] [[|?]|]]; cbn; auto.
Qed.

(** A rejected request makes [Promise.all] reject: nothing is applied, not
    even the other response. *)
Lemma poll_rejected (provRes : Fetched ProvData) (modRes : Fetched ModData)
  (why : FetchFailure) (s : PipelineState) :
  fetchStatus (fetch_rejected why) modRes s = s ∧
  fetchStatus provRes (fetch_rejected why) s = s.
Proof. split; [done|by destruct provRes]. Qed.

(** A failed request never touches the field it feeds, whatever the other
    request does. *)
Lemma failed_request_keeps_its_field (provRes : Fetched ProvData)
  (modRes : Fetched ModData) (s : PipelineState) :
  (request_failed provRes = true →
   providerStatus (fetchStatus provRes modRes s) = providerStatus s) ∧
  (request_failed modRes = true →
   availableModels (fetchStatus provRes modRes s) = availableModels s).
Proof.
  destruct provRes as [?|[] [[|?]|]], modRes as [?|[] [[|?]|]]; cbn; split; done.
Qed.

(** C10.  A poll whose two requests fail (rejected by a network error or a
    timeout, or answered with a status that is not ok) returns the state it
    was given: [providerStatus], [availableModels] and the run state are as
    before, and so are the refs. *)
Theorem failed_poll_changes_nothing (provRes : Fetched ProvData)
  (modRes : Fetched ModData) (x : Session) :
  request_failed provRes = true →
  request_failed modRes = true →
  let x' := step x (got_poll provRes modRes) in
  x' = x ∧
  providerStatus (state x') = providerStatus (state x) ∧
  availableModels (state x') = availableModels (state x) ∧
  status (state x') = status (state x) ∧
  agentMetrics (state x') = agentMetrics (state x) ∧
  totalTokens (state x') = totalTokens (state x) ∧
  totalMs (state x') = totalMs (state x) ∧
  error (state x') = error (state x).
Proof.
  intros Hprov Hmod. cbn zeta.
  assert (Hsame : step x (got_poll provRes modRes) = x).
  { destruct x as [s c r], s.
    destruct provRes as [?|[] ?], modRes as [?|[] ?]; done. }
  rewrite Hsame. repeat split.
Qed.

Lemma failed_poll_changes_nothing_witness :
  let known :=
    step initialSession
      (got_poll
         (response true
            (Some (json_data
                     {| providers :=
                          Some {| Providers.ollama := Some true;
                                  Providers.lmstudio := None;
                                  Providers.llamacpp := Some false;
                                  Providers.transformers := None |} |})))
         (response true
            (Some (json_data {| models := Some {[ "ollama" := ["llama3"] ]} |})))) in
  ProviderStatus.ollama (providerStatus (state known)) = true ∧
  availableModels (state known) !! "ollama" = Some ["llama3"] ∧
  request_failed (@fetch_rejected ProvData network_error) = true ∧
  request_failed (@response ModData false None) = true ∧
  step known (got_poll (fetch_rejected network_error) (response false None)) = known.
Proof.
  cbn zeta. split; [reflexivity|]. split; [reflexivity|].
  split; [reflexivity|]. split; [reflexivity|].
  refine (proj1 (failed_poll_changes_nothing
                   (fetch_rejected network_error) (response false None) _
                   eq_refl eq_refl)).
Defined.

(** * Further properties *)

Set Warnings "-clear-no-such-hyp".

(** ** The handler, frame by frame *)

(** A frame writes at most the record of the agent it names. *)
Lemma handleEvent_other_agent (event : Event) (s : PipelineState) (id : string) :
  agent_of event ≠ Some id →
  agentMetrics (handleEvent event s) !! id = agentMetrics s !! id.
Proof.
  intros Hother.
  assert (Hins : ∀ id' (m : AgentMetrics.t), agent_of event = Some id' →
            <[id' := m]> (agentMetrics s) !! id = agentMetrics s !! id).
  { intros id' m Hagent. apply lookup_insert_ne. congruence. }
  destruct event as [id' p|id' tok tt tps|id' v|id' tt tps lat v p| | | |];
    cbn; try done.
  - unfold on_agent_start. cbn. by apply Hins.
  - unfold on_agent_token. cbn. by apply Hins.
  - unfold on_agent_vram.
    destruct (get_metrics (agentMetrics s) id'); cbn; [by apply Hins|done].
  - unfold on_agent_done.
    destruct (get_metrics (agentMetrics s) id'); cbn; [by apply Hins|done].
Qed.

Lemma handleEvents_other_agent (events : list Event) (s : PipelineState) (id : string) :
  Forall (λ event, agent_of event ≠ Some id) events →
  agentMetrics (handleEvents events s) !! id = agentMetrics s !! id.
Proof.
  intros Hall. revert s.
  induction Hall as [|event events Hevent _ IH]; intros s; [done|].
  change (handleEvents (event :: events) s)
    with (handleEvents events (handleEvent event s)).
  by rewrite IH, handleEvent_other_agent.
Qed.

(** X1.  Frames about other agents, and pipeline-level or unknown frames,
    leave the record of an agent exactly as it was, however many of them
    arrive. *)
Theorem frames_do_not_cross_agents (events : list Event) (s : PipelineState)
  (id : string) :
  Forall (λ event, agent_of event ≠ Some id) events →
  agentMetrics (handleEvents events s) !! id = agentMetrics s !! id.
Proof. apply handleEvents_other_agent. Qed.

Lemma frames_do_not_cross_agents_witness :
  let s := state (run initialSession) in
  let events :=
    [ agent_start "coder-1" (Some ollama);
      agent_token "coder-1" (Some "def") (Some 1%float) (Some 9%float);
      stage_parallel (Some 1%float) (Some ["coder-1"; "analyzer-1"]);
      agent_done "coder-1" None None (Some 80%float) None None ] in
  Forall (λ event, agent_of event ≠ Some "router-1") events ∧
  agentMetrics (handleEvents events s) !! "router-1" = Some idleMetrics.
Proof.
  cbn zeta.
  assert (Hother :
    Forall (λ event, agent_of event ≠ Some "router-1")
      [ agent_start "coder-1" (Some ollama);
        agent_token "coder-1" (Some "def") (Some 1%float) (Some 9%float);
        stage_parallel (Some 1%float) (Some ["coder-1"; "analyzer-1"]);
        agent_done "coder-1" None None (Some 80%float) None None ])
    by (repeat constructor; discriminate).
  split; [exact Hother|].
  rewrite (frames_do_not_cross_agents _ (state (run initialSession)) "router-1" Hother).
  reflexivity.
Defined.

Lemma handleEvent_keys (event : Event) (s : PipelineState) :
  dom (agentMetrics (handleEvent event s)) =
    dom (agentMetrics s) ∪ list_to_set (created_by event).
Proof.
  assert (Hguard : ∀ id (prev m : AgentMetrics.t),
    get_metrics (agentMetrics s) id = Some prev →
    dom (<[id := m]> (agentMetrics s))
    = dom (agentMetrics s)
      ∪ list_to_set (if bool_decide (id ∈ OBJECT_PROTOTYPE_KEYS) then [id] else [])).
  { intros id prev m Hprev. rewrite dom_insert_L. case_bool_decide as Hproto.
    - set_solver.
    - apply get_metrics_Some in Hprev as [Hown|?]; [|done].
      assert (id ∈ dom (agentMetrics s)) by (apply elem_of_dom; by eexists).
      set_solver. }
  assert (Hnone : ∀ id, get_metrics (agentMetrics s) id = None →
    dom (agentMetrics s)
    = dom (agentMetrics s)
      ∪ list_to_set (if bool_decide (id ∈ OBJECT_PROTOTYPE_KEYS) then [id] else [])).
  { intros id. unfold get_metrics. destruct (agentMetrics s !! id); [done|].
    case_bool_decide; [done|]. intros _. cbn. by rewrite union_empty_r_L. }
  destruct event as [id' p|id' tok tt tps|id' v|id' tt tps lat v p| | | |];
    cbn [created_by]; cbn; rewrite ?union_empty_r_L; try done.
  - unfold on_agent_start. cbn. rewrite dom_insert_L. set_solver.
  - unfold on_agent_token. cbn. rewrite dom_insert_L. set_solver.
  - unfold on_agent_vram.
    destruct (get_metrics (agentMetrics s) id') as [prev|] eqn:Hprev; cbn.
    + by apply (Hguard id' prev).
    + by apply Hnone.
  - unfold on_agent_done.
    destruct (get_metrics (agentMetrics s) id') as [prev|] eqn:Hprev; cbn.
    + by apply (Hguard id' prev).
    + by apply Hnone.
Qed.

(** X2.  The agents with a record after a sequence of frames are exactly
    those with a record before, those named by an [agent_start] or an
    [agent_token] frame, and those named by an [agent_vram] or [agent_done]
    frame whose id is the name of a member of [Object.prototype]: no frame
    removes a record, and under any other id [agent_vram] and [agent_done]
    never add one. *)
Theorem keys_after_frames (events : list Event) (s : PipelineState) :
  dom (agentMetrics (handleEvents events s)) =
    dom (agentMetrics s) ∪ list_to_set (events ≫= created_by).
Proof.
  revert s. induction events as [|event events IH]; intros s.
  - cbn. by rewrite union_empty_r_L.
  - change (handleEvents (event :: events) s)
      with (handleEvents events (handleEvent event s)).
    rewrite IH, handleEvent_keys. cbn [mbind list_bind].
    rewrite list_to_set_app_L. set_solver.
Qed.

(** A record that is complete stays complete under every frame. *)
Lemma handleEvent_complete (event : Event) (s : PipelineState) (id : string)
  (m : AgentMetrics.t) :
  agentMetrics s !! id = Some m → complete m = true →
  ∃ m', agentMetrics (handleEvent event s) !! id = Some m' ∧ complete m' = true.
Proof.
  intros Hm Hcomplete.
  pose proof (get_metrics_own _ _ _ Hm) as Hget.
  destruct (decide (agent_of event = Some id)) as [Hagent|Hother].
  - destruct m as [st tok tps lat vr out prov].
    unfold complete in Hcomplete. cbn in Hcomplete.
    destruct tok, tps, lat, out; try done.
    destruct event as [id' p|id' tk tt ts|id' v|id' tt ts la v p| | | |];
      try discriminate; injection Hagent as ->; cbn.
    + unfold on_agent_start. cbn. rewrite lookup_insert_eq, Hget. by eexists.
    + unfold on_agent_token. cbn. rewrite lookup_insert_eq, Hget.
      eexists; split; [done|]. by destruct tt, ts.
    + unfold on_agent_vram. rewrite Hget. cbn. rewrite lookup_insert_eq. by eexists.
    + unfold on_agent_done. rewrite Hget. cbn. rewrite lookup_insert_eq.
      eexists; split; [done|]. by destruct tt, ts, la.
  - rewrite (handleEvent_other_agent event s id Hother). by exists m.
Qed.

(** What the controller calls, the catch branch and a poll do to the
    records. *)
Lemma step_agentMetrics (x : Session) (a : Action) :
  agentMetrics (state (step x a)) =
    match a with
    | call_run | call_reset => defaultMetrics
    | got_frame event => agentMetrics (handleEvent event (state x))
    | _ => agentMetrics (state x)
    end.
Proof.
  destruct a as [| | |ok code body|event|err|provRes modRes]; cbn; try done.
  - by destruct ok, body.
  - destruct err as [name message|text]; cbn; [|done].
    by destruct (String.eqb name "AbortError").
  - apply poll_keeps_run_state.
Qed.

(** X3.  In every reachable state each of the five default agents has a
    record whose tokens, tokensPerSec, latencyMs and output are all defined. *)
Theorem default_agents_stay_complete (trace : list Action) (id : string) :
  id ∈ DEFAULT_AGENT_IDS →
  ∃ m, agentMetrics (state (exec trace initialSession)) !! id = Some m ∧
       complete m = true.
Proof.
  intros Hin.
  assert (Hdefault : defaultMetrics !! id = Some idleMetrics).
  { rewrite defaultMetrics_lookup. by rewrite bool_decide_eq_true_2. }
  assert (Hstart : ∃ m, agentMetrics (state initialSession) !! id = Some m ∧
                        complete m = true) by (by exists idleMetrics).
  revert Hstart. generalize initialSession.
  induction trace as [|a trace IH]; intros x Hx; [done|].
  apply IH. rewrite step_agentMetrics.
  destruct Hx as (m & Hm & Hcomplete).
  destruct a; try (by exists m); try (by exists idleMetrics).
  by apply (handleEvent_complete _ _ _ m).
Qed.

Lemma default_agents_stay_complete_witness :
  "coder-1" ∈ DEFAULT_AGENT_IDS ∧
  ∃ m,
    agentMetrics
      (state (exec [ call_run; got_frame (agent_start "coder-1" None);
                     got_frame (agent_vram "coder-1" None); call_stop ]
                initialSession)) !! "coder-1" = Some m ∧
    complete m = true.
Proof.
  assert (Hin : "coder-1" ∈ DEFAULT_AGENT_IDS) by (vm_compute; set_solver).
  split; [exact Hin|].
  exact (default_agents_stay_complete _ "coder-1" Hin).
Defined.

(** X4.  For each of the five default agents, the output after [run()] and
    any frames is the concatenation, in arrival order, of the tokens of its
    [agent_token] frames. *)
Theorem default_agents_output (events : list Event) (x : Session) (id : string) :
  id ∈ DEFAULT_AGENT_IDS →
  output_of id (handleEvents events (state (run x))) = Some (tokens_of id events).
Proof. apply default_agent_output. Qed.

Lemma default_agents_output_witness :
  let events :=
    [ agent_token "coder-1" (Some "de") None None;
      agent_token "router-1" (Some "x") None None;
      agent_done "coder-1" None None None None None;
      agent_token "coder-1" (Some "f") None None ] in
  "coder-1" ∈ DEFAULT_AGENT_IDS ∧
  output_of "coder-1" (handleEvents events (state (run initialSession))) = Some "def".
Proof.
  cbn zeta.
  assert (Hin : "coder-1" ∈ DEFAULT_AGENT_IDS) by (vm_compute; set_solver).
  split; [exact Hin|].
  exact (default_agents_output _ initialSession "coder-1" Hin).
Defined.

(** ** Status and error across a session *)

Lemma handleEvent_status (event : Event) (s : PipelineState) :
  status (handleEvent event s) =
    match event with
    | pipeline_done _ _ => PipelineStatus.done
    | pipeline_error _ => PipelineStatus.stopped
    | _ => status s
    end.
Proof. case_frame event; done. Qed.

(** X5.  Once [run()] has been called, nothing but [reset()] brings the
    pipeline back to [idle]: no frame, stop, thrown value, response or poll
    does. *)
Theorem only_reset_returns_to_idle (trace : list Action) (x : Session) :
  Forall (λ a, is_reset a = false) trace →
  status (state (exec trace (run x))) ≠ PipelineStatus.idle.
Proof.
  intros Hall.
  assert (Hrun : status (state (run x)) ≠ PipelineStatus.idle) by done.
  revert Hrun. generalize (run x).
  induction Hall as [|a trace Ha _ IH]; intros y Hy; [done|].
  apply IH.
  destruct a as [| | |ok code body|event|err|provRes modRes]; cbn; try done.
  - by destruct ok, body.
  - rewrite handleEvent_status. by destruct event.
  - destruct err as [name message|text]; cbn; [|done].
    by destruct (String.eqb name "AbortError").
  - by destruct (poll_keeps_run_state provRes modRes (state y)) as (-> & _).
Qed.

Lemma only_reset_returns_to_idle_witness :
  let trace :=
    [ got_frame (pipeline_done None None); call_stop;
      got_thrown (other_value "boom"); got_response false "500" stream_body ] in
  Forall (λ a, is_reset a = false) trace ∧
  status (state (exec trace (run initialSession))) ≠ PipelineStatus.idle ∧
  status (state (exec (trace ++ [call_reset]) (run initialSession)))
    = PipelineStatus.idle.
Proof.
  cbn zeta.
  assert (Hall :
    Forall (λ a, is_reset a = false)
      [ got_frame (pipeline_done None None); call_stop;
        got_thrown (other_value "boom"); got_response false "500" stream_body ])
    by (repeat constructor).
  split; [exact Hall|]. split; [|reflexivity].
  exact (only_reset_returns_to_idle _ initialSession Hall).
Defined.

Lemma step_error (x : Session) (a : Action) :
  may_write_error a = false → error (state (step x a)) = error (state x).
Proof.
  destruct a as [| | |ok code body|event|err|provRes modRes]; cbn; try done.
  - by destruct ok, body.
  - apply handleEvent_error.
  - intros Habort. pose proof (run_catch_cases err (state x)) as Hcases.
    destruct (is_abort err); [by rewrite Hcases|done].
  - intros _. apply poll_keeps_run_state.
Qed.

(** X6.  [error] is written only by [run()], [reset()], a [pipeline_error]
    frame, a thrown value that is not an abort and a response that is not
    ok or has no body; through any other sequence of steps (other frames,
    [stop()], aborts, ok responses with a body, polls) it stays what it
    was. *)
Theorem error_kept_by_other_steps (trace : list Action) (x : Session) :
  Forall (λ a, may_write_error a = false) trace →
  error (state (exec trace x)) = error (state x).
Proof.
  intros Hall. revert x.
  induction Hall as [|a trace Ha _ IH]; intros x; [done|].
  change (exec (a :: trace) x) with (exec trace (step x a)).
  by rewrite IH, step_error.
Qed.

Lemma error_kept_by_other_steps_witness :
  let x :=
    exec [ call_run; got_frame (pipeline_error (Some "model unavailable")) ]
      initialSession in
  let trace :=
    [ got_frame (agent_token "router-1" (Some "late") None None);
      call_stop; got_thrown AbortError;
      got_response true "200" stream_body;
      got_poll (fetch_rejected timeout) (fetch_rejected timeout);
      got_frame (pipeline_done None None) ] in
  Forall (λ a, may_write_error a = false) trace ∧
  error (state (exec trace x)) = Some "model unavailable".
Proof.
  cbn zeta.
  assert (Hall :
    Forall (λ a, may_write_error a = false)
      [ got_frame (agent_token "router-1" (Some "late") None None);
        call_stop; got_thrown AbortError;
        got_response true "200" stream_body;
        got_poll (fetch_rejected timeout) (fetch_rejected timeout);
        got_frame (pipeline_done None None) ])
    by (repeat constructor).
  split; [exact Hall|].
  rewrite (error_kept_by_other_steps _ _ Hall). reflexivity.
Defined.

(** X7.  [run()] forgets what [stop()], [reset()] or an earlier [run()] did
    to the state: calling it after one of them gives the state that calling
    it directly gives, and two calls in a row give the session of one. *)
Theorem run_absorbs_controller_calls (x : Session) :
  run (run x) = run x ∧
  state (run (stop x)) = state (run x) ∧
  state (run (reset x)) = state (run x).
Proof. by destruct x as [[] c r]. Qed.

(** X8.  In every reachable state [activeParallelStage] is set exactly when
    the last frame received among [stage_parallel], [pipeline_done] and
    [pipeline_error] is a [stage_parallel]; no call of the controller, no
    other frame, no thrown value and no poll sets or clears it. *)
Theorem parallel_stage_follows_frames (trace : list Action) :
  is_Some (activeParallelStage (state (exec trace initialSession)))
  ↔ stage_open trace = true.
Proof. apply activeParallelStage_follows_frames. Qed.

(** ** What the canvas and the panel show *)

Lemma isGlowing_defaultMetrics (edge : Edge.t) :
  isGlowing defaultMetrics edge = false.
Proof.
  unfold isGlowing. rewrite !defaultMetrics_lookup.
  by repeat case_bool_decide.
Qed.

(** X9.  Right after [run()] and right after [reset()] no edge of the
    canvas glows, whatever its end points. *)
Theorem no_edge_glows_after_run_or_reset (x : Session) (edge : Edge.t) :
  isGlowing (agentMetrics (state (run x))) edge = false ∧
  isGlowing (agentMetrics (state (reset x))) edge = false.
Proof. split; apply isGlowing_defaultMetrics. Qed.

(** X10.  An [agent_start] frame makes every edge that leaves the agent
    glow, whatever the state of the target. *)
Theorem agent_start_lights_outgoing_edges (s : PipelineState) (id target : string)
  (provider : option ProviderType) :
  isGlowing (agentMetrics (handleEvent (agent_start id provider) s))
    {| Edge.source := id; Edge.target := target |} = true.
Proof.
  unfold isGlowing. cbn. rewrite lookup_insert_eq. cbn.
  by rewrite ?orb_true_r.
Qed.

(** X11.  When an agent with a record finishes, an edge from it to another
    agent glows exactly when that other agent is running. *)
Theorem agent_done_edges_follow_target (s : PipelineState) (id target : string)
  (totalTokens tokensPerSec latencyMs vramGb : option number)
  (provider : option ProviderType) :
  is_Some (agentMetrics s !! id) →
  id ≠ target →
  isGlowing
    (agentMetrics
       (handleEvent (agent_done id totalTokens tokensPerSec latencyMs vramGb provider) s))
    {| Edge.source := id; Edge.target := target |}
  = is_running (agentMetrics s !! target).
Proof.
  intros [prev Hprev] Hne. unfold isGlowing. cbn. unfold on_agent_done.
  rewrite (get_metrics_own _ _ _ Hprev). cbn. rewrite lookup_insert_eq, lookup_insert_ne by done. cbn.
  by rewrite ?orb_false_r.
Qed.

Lemma agent_done_edges_follow_target_witness :
  let s :=
    handleEvents [ agent_start "router-1" None; agent_start "coder-1" None ]
      (state (run initialSession)) in
  let s' := handleEvent (agent_done "router-1" None None None None None) s in
  is_Some (agentMetrics s !! "router-1") ∧
  "router-1" ≠ "coder-1" ∧
  isGlowing (agentMetrics s') {| Edge.source := "router-1"; Edge.target := "coder-1" |}
    = true ∧
  isGlowing (agentMetrics s') {| Edge.source := "router-1"; Edge.target := "analyzer-1" |}
    = false.
Proof.
  cbn zeta.
  assert (Hrec : is_Some
    (agentMetrics
       (handleEvents [ agent_start "router-1" None; agent_start "coder-1" None ]
          (state (run initialSession))) !! "router-1")) by (eexists; reflexivity).
  split; [exact Hrec|]. split; [discriminate|]. split.
  - rewrite (agent_done_edges_follow_target _ "router-1" "coder-1"
               None None None None None Hrec); [reflexivity|discriminate].
  - reflexivity.
Defined.

(** Replacing the record of an agent moves it between the counted groups. *)
Lemma count_status_insert (st : option AgentMetrics.t → bool)
  (metrics : gmap string AgentMetrics.t) (id : string) (m m' : AgentMetrics.t) :
  metrics !! id = Some m →
  count_status st (<[id := m']> metrics) + Nat.b2n (st (Some m))
  = count_status st metrics + Nat.b2n (st (Some m')).
Proof.
  intros Hm. unfold count_status.
  rewrite <- (insert_delete_eq metrics id m').
  rewrite (map_to_list_insert (delete id metrics) id m') by apply lookup_delete_eq.
  rewrite <- (map_to_list_delete metrics id m Hm).
  cbn [fmap list_fmap snd]. rewrite !filter_cons.
  destruct (st (Some m)), (st (Some m')); cbn;
    repeat case_decide; try done; cbn; lia.
Qed.

(** X12.  The panel's counts follow the frames of an agent with a record:
    [agent_start] makes it count as active (once), [agent_done] takes it out
    of the active count and puts it in the done count (once). *)
Theorem counts_follow_agent_frames (s : PipelineState) (id : string)
  (m : AgentMetrics.t) (provider : option ProviderType)
  (totalTokens tokensPerSec latencyMs vramGb : option number) :
  agentMetrics s !! id = Some m →
  let started := handleEvent (agent_start id provider) s in
  let finished :=
    handleEvent (agent_done id totalTokens tokensPerSec latencyMs vramGb provider) s in
  activeAgentCount started + Nat.b2n (is_running (Some m)) = S (activeAgentCount s) ∧
  doneCount started + Nat.b2n (is_done (Some m)) = doneCount s ∧
  activeAgentCount finished + Nat.b2n (is_running (Some m)) = activeAgentCount s ∧
  doneCount finished + Nat.b2n (is_done (Some m)) = S (doneCount s).
Proof.
  intros Hm. cbn zeta. unfold activeAgentCount, doneCount. cbn.
  unfold on_agent_start, on_agent_done. rewrite (get_metrics_own _ _ _ Hm). cbn.
  repeat split.
  - rewrite (count_status_insert is_running _ id m _ Hm). cbn. lia.
  - rewrite (count_status_insert is_done _ id m _ Hm). cbn. lia.
  - rewrite (count_status_insert is_running _ id m _ Hm). cbn. lia.
  - rewrite (count_status_insert is_done _ id m _ Hm). cbn. lia.
Qed.

Lemma counts_follow_agent_frames_witness :
  let s := handleEvent (agent_start "router-1" None) (state (run initialSession)) in
  let finished := handleEvent (agent_done "router-1" None None None None None) s in
  activeAgentCount s = 1 ∧ doneCount s = 0 ∧
  activeAgentCount finished + 1 = activeAgentCount s ∧
  doneCount finished + 0 = S (doneCount s).
Proof.
  cbn zeta. split; [reflexivity|]. split; [reflexivity|].
  destruct (counts_follow_agent_frames
              (handleEvent (agent_start "router-1" None) (state (run initialSession)))
              "router-1" _ None None None None None eq_refl)
    as (_ & _ & Hactive & Hdone).
  split; [exact Hactive|exact Hdone].
Defined.

(** ** Discovery polls *)

(** X13.  A poll writes no field but [providerStatus] and
    [availableModels]: run state, configuration and selection come out as
    they went in. *)
Theorem poll_writes_discovery_fields_only (provRes : Fetched ProvData)
  (modRes : Fetched ModData) (s : PipelineState) :
  let s' := fetchStatus provRes modRes s in
  s' = set_availableModels (availableModels s') (set_providerStatus (providerStatus s') s).
Proof.
  destruct s.
  destruct provRes as [?|[] [[|?]|]], modRes as [?|[] [[|?]|]]; reflexivity.
Qed.

(** X14.  Receiving the same pair of responses twice gives the state of
    receiving it once, and a poll whose two responses are ok and carry data
    overwrites whatever any earlier poll left. *)
Theorem polls_overwrite (provRes provRes' : Fetched ProvData)
  (modRes modRes' : Fetched ModData) (d : ProvData) (e : ModData)
  (s : PipelineState) :
  fetchStatus provRes modRes (fetchStatus provRes modRes s)
  = fetchStatus provRes modRes s ∧
  fetchStatus (response true (Some (json_data d))) (response true (Some (json_data e)))
    (fetchStatus provRes' modRes' s)
  = fetchStatus (response true (Some (json_data d))) (response true (Some (json_data e))) s.
Proof.
  destruct s. split.
  - destruct provRes as [?|[] [[|?]|]], modRes as [?|[] [[|?]|]]; reflexivity.
  - destruct provRes' as [?|[] [[|?]|]], modRes' as [?|[] [[|?]|]]; reflexivity.
Qed.

Lemma step_discovery (x : Session) (a : Action) :
  brings_nothing a = true →
  providerStatus (state (step x a)) = providerStatus (state x) ∧
  availableModels (state (step x a)) = availableModels (state x).
Proof.
  destruct a as [| | |ok code body|event|err|provRes modRes]; cbn; try done.
  - by destruct ok, body.
  - intros _. by destruct (handleEvent_keeps_configuration event (state x))
      as (_ & _ & _ & -> & -> & _).
  - intros _. destruct err as [name message|text]; cbn; [|done].
    by destruct (String.eqb name "AbortError").
  - intros [Hprov Hmod]%andb_prop.
    by destruct provRes as [?|[] ?], modRes as [?|[] ?].
Qed.

(** X15.  As long as every poll fails, the node panel shows simulation as
    the only provider online and offers no model, whatever else happens in
    the session. *)
Theorem offline_until_a_poll_succeeds (trace : list Action) (p : ProviderType) :
  Forall (λ a, brings_nothing a = true) trace →
  providerOnline p (state (exec trace initialSession))
  = match p with simulation => true | _ => false end ∧
  modelOptions p (state (exec trace initialSession)) = [].
Proof.
  intros Hall.
  assert (Hkept :
    providerStatus (state (exec trace initialSession)) = DEFAULT_PROVIDER_STATUS ∧
    availableModels (state (exec trace initialSession)) = ∅).
  { assert (Hstart : providerStatus (state initialSession) = DEFAULT_PROVIDER_STATUS ∧
                     availableModels (state initialSession) = ∅) by done.
    revert Hstart. generalize initialSession.
    induction Hall as [|a trace Ha _ IH]; intros x Hx; [done|].
    apply IH. destruct (step_discovery x a Ha) as [-> ->]. exact Hx. }
  destruct Hkept as [Hstatus Hmodels].
  unfold providerOnline, modelOptions. rewrite Hstatus, Hmodels.
  by destruct p.
Qed.

Lemma offline_until_a_poll_succeeds_witness :
  let trace :=
    [ got_poll (fetch_rejected network_error) (fetch_rejected network_error);
      call_run; got_thrown (error_object "TypeError" "Failed to fetch");
      got_poll (response false None) (response false None) ] in
  Forall (λ a, brings_nothing a = true) trace ∧
  providerOnline ollama (state (exec trace initialSession)) = false ∧
  modelOptions ollama (state (exec trace initialSession)) = [].
Proof.
  cbn zeta.
  assert (Hall :
    Forall (λ a, brings_nothing a = true)
      [ got_poll (fetch_rejected network_error) (fetch_rejected network_error);
        call_run; got_thrown (error_object "TypeError" "Failed to fetch");
        got_poll (response false None) (response false None) ])
    by (repeat constructor).
  split; [exact Hall|].
  exact (offline_until_a_poll_succeeds _ ollama Hall).
Defined.

(** ** Node configuration *)

(** Case analysis on the optional keys a spread reads. *)
Ltac case_options :=
  repeat (match goal with
          | |- context [default _ ?o] => is_var o; destruct o
          | |- context [nullish ?o _] => is_var o; destruct o
          end; cbn);
  reflexivity.

Lemma getDefaultConfig_tools (nodeId : string) (agentType : option AgentType) :
  NodeConfig.tools (getDefaultConfig nodeId agentType) = None.
Proof.
  unfold getDefaultConfig.
  by destruct (default custom (agentType ?? NODE_ID_TO_AGENT_TYPE !! nodeId)).
Qed.

(** X16.  Two patches applied to a node one after the other give what the
    single patch [{...p1, ...p2}] gives. *)
Theorem setNodeConfig_composes (nodeId : string) (p1 p2 : NodeConfigPatch.t)
  (s : PipelineState) :
  setNodeConfig nodeId p2 (setNodeConfig nodeId p1 s)
  = setNodeConfig nodeId (merge_patch p1 p2) s.
Proof.
  assert (Hmerged :
    spread_patch
      (spread_config (getDefaultConfig nodeId None)
         (Some (spread_patch
                  (spread_config (getDefaultConfig nodeId None)
                     (nodeConfigs s !! nodeId)) p1))) p2
    = spread_patch
        (spread_config (getDefaultConfig nodeId None) (nodeConfigs s !! nodeId))
        (merge_patch p1 p2)).
  { pose proof (getDefaultConfig_tools nodeId None) as Htools.
    destruct (getDefaultConfig nodeId None) as [dp dm ds dt dtemp dtools].
    cbn in Htools. subst dtools.
    destruct p1 as [a1 b1 c1 d1 e1 f1], p2 as [a2 b2 c2 d2 e2 f2].
    destruct (nodeConfigs s !! nodeId) as [[op om os ot otemp otools]|];
      unfold spread_patch, merge_patch; cbn; f_equal; case_options. }
  unfold setNodeConfig. cbn. rewrite lookup_insert_eq, insert_insert_eq, Hmerged.
  by destruct s.
Qed.

(** X17.  Resetting a node that had no stored config before it was patched
    gives back the state from before the patch. *)
Theorem resetNodeConfig_undoes_first_patch (nodeId : string)
  (patch : NodeConfigPatch.t) (agentType : option AgentType) (s : PipelineState) :
  nodeConfigs s !! nodeId = None →
  resetNodeConfig nodeId agentType (setNodeConfig nodeId patch s) = s.
Proof.
  intros Hnone. unfold resetNodeConfig, setNodeConfig. cbn.
  rewrite delete_insert_eq, delete_id by done. by destruct s.
Qed.

Lemma resetNodeConfig_undoes_first_patch_witness :
  let patch :=
    {| NodeConfigPatch.provider := Some ollama;
       NodeConfigPatch.modelId := Some "llama3";
       NodeConfigPatch.systemPrompt := None;
       NodeConfigPatch.maxTokens := None;
       NodeConfigPatch.temperature := None;
       NodeConfigPatch.tools := None |} in
  nodeConfigs initialState !! "coder-1" = None ∧
  NodeConfig.modelId <$> nodeConfigs (setNodeConfig "coder-1" patch initialState) !! "coder-1"
    = Some "llama3" ∧
  resetNodeConfig "coder-1" (Some coder) (setNodeConfig "coder-1" patch initialState)
    = initialState.
Proof.
  cbn zeta. split; [reflexivity|]. split; [reflexivity|].
  exact (resetNodeConfig_undoes_first_patch "coder-1" _ (Some coder) initialState eq_refl).
Defined.

(** X18.  Editing a field in the node panel changes the config the panel
    shows by exactly that patch, provided the node already has a stored
    config or its defaults by id are its defaults by type. *)
Theorem panel_edit_changes_only_the_patch (nodeId : string) (agentType : AgentType)
  (patch : NodeConfigPatch.t) (s : PipelineState) :
  is_Some (nodeConfigs s !! nodeId) ∨
    getDefaultConfig nodeId (Some agentType) = getDefaultConfig nodeId None →
  panelConfig nodeId agentType (setNodeConfig nodeId patch s)
  = spread_patch (panelConfig nodeId agentType s) patch.
Proof.
  intros Hcase. unfold panelConfig, setNodeConfig. cbn. rewrite lookup_insert_eq.
  pose proof (getDefaultConfig_tools nodeId None) as Hnone.
  pose proof (getDefaultConfig_tools nodeId (Some agentType)) as Htype.
  destruct patch as [a b c d e f].
  destruct (nodeConfigs s !! nodeId) as [[op om os ot otemp otools]|] eqn:Hstored.
  - cbn. rewrite Hnone, Htype. by destruct a, b, c, d, e, f, otools.
  - destruct Hcase as [[? ?]|Hsame]; [done|]. rewrite <- Hsame.
    destruct (getDefaultConfig nodeId (Some agentType)) as [dp dm ds dt dtemp dtools].
    cbn in Htype. subst dtools. cbn. by destruct a, b, c, d, e, f.
Qed.

Lemma panel_edit_changes_only_the_patch_witness :
  let patch :=
    {| NodeConfigPatch.provider := None;
       NodeConfigPatch.modelId := None;
       NodeConfigPatch.systemPrompt := None;
       NodeConfigPatch.maxTokens := None;
       NodeConfigPatch.temperature := Some 0.9%float;
       NodeConfigPatch.tools := None |} in
  getDefaultConfig "coder-1" (Some coder) = getDefaultConfig "coder-1" None ∧
  NodeConfig.maxTokens (panelConfig "coder-1" coder (setNodeConfig "coder-1" patch initialState))
    = 1024%float ∧
  NodeConfig.temperature (panelConfig "coder-1" coder (setNodeConfig "coder-1" patch initialState))
    = 0.9%float.
Proof.
  cbn zeta. split; [reflexivity|].
  rewrite (panel_edit_changes_only_the_patch "coder-1" coder _ initialState
             (or_intror eq_refl)).
  split; reflexivity.
Defined.

Lemma resets_lookup (configs : list (string * NodeConfigPatch.t)) (s : PipelineState)
  (id : string) :
  nodeConfigs (foldl (λ acc entry, resetNodeConfig entry.1 None acc) s configs) !! id
  = if bool_decide (id ∈ configs.*1) then None else nodeConfigs s !! id.
Proof.
  revert s. induction configs as [|[k p] configs IH]; intros s; [done|].
  cbn [foldl]. rewrite IH. cbn [fmap list_fmap fst].
  destruct (decide (id = k)) as [->|Hne].
  - rewrite (bool_decide_eq_true_2 (k ∈ k :: configs.*1)) by apply list_elem_of_here.
    case_bool_decide; [done|]. cbn. apply lookup_delete_eq.
  - cbn. rewrite lookup_delete_ne by done.
    repeat case_bool_decide; try done.
    + exfalso. set_solver.
    + exfalso. set_solver.
Qed.

Lemma patches_lookup (configs : list (string * NodeConfigPatch.t)) (s : PipelineState)
  (id : string) :
  NoDup configs.*1 →
  nodeConfigs (foldl (λ acc entry, setNodeConfig entry.1 entry.2 acc) s configs) !! id
  = match (list_to_map configs : gmap string NodeConfigPatch.t) !! id with
    | Some patch =>
        Some (spread_patch
                (spread_config (getDefaultConfig id None) (nodeConfigs s !! id)) patch)
    | None => nodeConfigs s !! id
    end.
Proof.
  intros Hnodup. revert s.
  induction configs as [|[k p] configs IH]; intros s; [done|].
  apply NoDup_cons in Hnodup as [Hfresh Hnodup].
  cbn [foldl]. rewrite (IH Hnodup). cbn [list_to_map foldr fst snd].
  destruct (decide (id = k)) as [->|Hne].
  - rewrite lookup_insert_eq.
    rewrite (not_elem_of_list_to_map_1 configs k Hfresh).
    unfold setNodeConfig. cbn. by rewrite lookup_insert_eq.
  - rewrite lookup_insert_ne by done.
    unfold setNodeConfig at 1 2. cbn. by rewrite lookup_insert_ne.
Qed.

(** X19.  Loading a saved pipeline gives every node of the file the
    defaults for its id overlaid with the saved config, whatever the node
    had before, and leaves the stored config of every other node as it was. *)
Theorem loaded_configs_replace_old_ones (configs : list (string * NodeConfigPatch.t))
  (s : PipelineState) (id : string) :
  NoDup configs.*1 →
  nodeConfigs (applyLoadedConfigs configs s) !! id
  = match (list_to_map configs : gmap string NodeConfigPatch.t) !! id with
    | Some patch => Some (spread_patch (getDefaultConfig id None) patch)
    | None => nodeConfigs s !! id
    end.
Proof.
  intros Hnodup. unfold applyLoadedConfigs.
  rewrite (patches_lookup _ _ _ Hnodup), resets_lookup.
  destruct (list_to_map configs !! id) as [patch|] eqn:Hpatch.
  - rewrite bool_decide_eq_true_2; [done|].
    apply list_elem_of_fmap. exists (id, patch). split; [done|].
    by apply elem_of_list_to_map.
  - rewrite bool_decide_eq_false_2; [done|].
    by apply not_elem_of_list_to_map.
Qed.

Lemma loaded_configs_replace_old_ones_witness :
  let old :=
    {| NodeConfigPatch.provider := Some ollama;
       NodeConfigPatch.modelId := Some "llama3";
       NodeConfigPatch.systemPrompt := Some "old prompt";
       NodeConfigPatch.maxTokens := None;
       NodeConfigPatch.temperature := None;
       NodeConfigPatch.tools := Some {| Tools.web_search := Some true |} |} in
  let saved :=
    {| NodeConfigPatch.provider := None;
       NodeConfigPatch.modelId := Some "phi";
       NodeConfigPatch.systemPrompt := None;
       NodeConfigPatch.maxTokens := None;
       NodeConfigPatch.temperature := None;
       NodeConfigPatch.tools := None |} in
  let s := setNodeConfig "coder-1" old initialState in
  NoDup [("coder-1", saved)].*1 ∧
  nodeConfigs (applyLoadedConfigs [("coder-1", saved)] s) !! "coder-1"
  = Some (spread_patch (getDefaultConfig "coder-1" None) saved).
Proof.
  cbn zeta.
  assert (Hnodup : NoDup [("coder-1",
    {| NodeConfigPatch.provider := None;
       NodeConfigPatch.modelId := Some "phi";
       NodeConfigPatch.systemPrompt := None;
       NodeConfigPatch.maxTokens := None;
       NodeConfigPatch.temperature := None;
       NodeConfigPatch.tools := None |})].*1)
    by (repeat constructor; set_solver).
  split; [exact Hnodup|].
  rewrite (loaded_configs_replace_old_ones _ _ "coder-1" Hnodup). reflexivity.
Defined.

(** ** The run request *)

Lemma step_configuration (x : Session) (a : Action) :
  prompt (state (step x a)) = prompt (state x) ∧
  useRealModels (state (step x a)) = useRealModels (state x) ∧
  providerType (state (step x a)) = providerType (state x) ∧
  nodeConfigs (state (step x a)) = nodeConfigs (state x).
Proof.
  destruct a as [| | |ok code body|event|err|provRes modRes]; cbn; try done.
  - by destruct ok, body.
  - by destruct (handleEvent_keeps_configuration event (state x))
      as (-> & -> & -> & _ & _ & _ & ->).
  - destruct err as [name message|text]; cbn; [|done].
    by destruct (String.eqb name "AbortError").
  - by destruct provRes as [?|[] [[|?]|]], modRes as [?|[] [[|?]|]].
Qed.

(** X20.  Nothing that happens in a session (runs, stops, resets, frames,
    thrown values, responses, polls) changes the request the next [run()]
    builds: it depends on the configuration alone. *)
Theorem run_request_survives_the_session (trace : list Action) (x : Session) :
  runBody (state (exec trace x)) = runBody (state x).
Proof.
  revert x. induction trace as [|a trace IH]; intros x; [done|].
  change (exec (a :: trace) x) with (exec trace (step x a)). rewrite IH.
  destruct (step_configuration x a) as (Hprompt & Hreal & Htype & Hconfigs).
  unfold runBody, agentConfigs. by rewrite Hprompt, Hreal, Htype, Hconfigs.
Qed.

Lemma agentConfigs_ids (s : PipelineState) :
  AgentConfigBody.agent_id <$> agentConfigs s = (map_to_list (nodeConfigs s)).*1.
Proof.
  unfold agentConfigs. rewrite <- list_fmap_compose.
  by apply list_fmap_ext.
Qed.

(** X21.  The request names exactly the nodes that have a stored config,
    each once, and leaves [agent_configs] out when there is none. *)
Theorem request_names_configured_nodes (s : PipelineState) :
  NoDup (AgentConfigBody.agent_id <$> agentConfigs s) ∧
  (∀ id, id ∈ AgentConfigBody.agent_id <$> agentConfigs s
         ↔ is_Some (nodeConfigs s !! id)) ∧
  (RunBody.agent_configs (runBody s) = None ↔ nodeConfigs s = ∅).
Proof.
  rewrite agentConfigs_ids. split; [apply NoDup_fst_map_to_list|]. split.
  - intros id. rewrite list_elem_of_fmap. split.
    + intros ([k cfg] & -> & Hin). apply elem_of_map_to_list in Hin. by eexists.
    + intros [cfg Hcfg]. exists (id, cfg). split; [done|].
      by apply elem_of_map_to_list.
  - unfold runBody, agentConfigs. cbn.
    rewrite <- map_to_list_empty_iff.
    destruct (map_to_list (nodeConfigs s)); cbn; split; done.
Qed.

(** X22.  A node with a stored config has one entry in the request, the
    one built from that config. *)
Theorem request_entry_of_node (s : PipelineState) (id : string) (cfg : NodeConfig.t) :
  nodeConfigs s !! id = Some cfg →
  agentConfig id cfg ∈ agentConfigs s ∧
  ∀ entry, entry ∈ agentConfigs s → AgentConfigBody.agent_id entry = id →
           entry = agentConfig id cfg.
Proof.
  intros Hcfg. unfold agentConfigs. split.
  - apply list_elem_of_fmap. exists (id, cfg). split; [done|].
    by apply elem_of_map_to_list.
  - intros entry ([k c] & -> & Hin)%list_elem_of_fmap Hid. cbn in Hid. subst k.
    apply elem_of_map_to_list in Hin. cbn. congruence.
Qed.

Lemma request_entry_of_node_witness :
  let patch :=
    {| NodeConfigPatch.provider := Some ollama;
       NodeConfigPatch.modelId := None;
       NodeConfigPatch.systemPrompt := None;
       NodeConfigPatch.maxTokens := None;
       NodeConfigPatch.temperature := None;
       NodeConfigPatch.tools := Some {| Tools.web_search := Some true |} |} in
  let s := setNodeConfig "custom-1730000000000-101" patch initialState in
  let cfg := spread_patch (getDefaultConfig "custom-1730000000000-101" None) patch in
  nodeConfigs s !! "custom-1730000000000-101" = Some cfg ∧
  agentConfig "custom-1730000000000-101" cfg ∈ agentConfigs s ∧
  ProviderBody.model_id
    (AgentConfigBody.provider (agentConfig "custom-1730000000000-101" cfg)) = None ∧
  AgentConfigBody.tools (agentConfig "custom-1730000000000-101" cfg)
    = Some ["web_search"].
Proof.
  cbn zeta.
  match goal with |- ?stored ∧ _ => assert (Hstored : stored) by reflexivity end.
  split; [exact Hstored|]. split; [|split; reflexivity].
  exact (proj1 (request_entry_of_node _ _ _ Hstored)).
Defined.

(** ** The stream reader *)

Lemma split_newline_cons (s : string) : ∃ first others, split_newline s = first :: others.
Proof.
  destruct s as [|c rest]; [by eexists _, _|]. cbn.
  destruct (Ascii.eqb c newline); [by eexists _, _|].
  destruct (split_newline rest); by eexists _, _.
Qed.

Lemma cut_newline (rest : string) :
  complete_lines (String newline rest) = "" :: complete_lines rest ∧
  pending (String newline rest) = pending rest.
Proof.
  unfold complete_lines, pending, pop. cbn.
  by destruct (split_newline_cons rest) as (first & others & ->).
Qed.

Lemma cut_other (c : Ascii.ascii) (rest : string) :
  Ascii.eqb c newline = false →
  complete_lines (String c rest) =
    match complete_lines rest with
    | [] => []
    | line :: lines => String c line :: lines
    end ∧
  pending (String c rest) =
    match complete_lines rest with
    | [] => String c (pending rest)
    | _ => pending rest
    end.
Proof.
  intros Hc. unfold complete_lines, pending, pop. cbn. rewrite Hc.
  destruct (split_newline_cons rest) as (first & others & ->).
  destruct others as [|second others]; [done|].
  cbn. by destruct others.
Qed.

Lemma cut_empty : complete_lines "" = [] ∧ pending "" = "".
Proof. done. Qed.

Lemma cut_app (a c : string) :
  complete_lines (a +:+ c)
  = (complete_lines a ++ complete_lines (pending a +:+ c))%list ∧
  pending (a +:+ c) = pending (pending a +:+ c).
Proof.
  induction a as [|ch a [IHlines IHrest]]; [done|].
  change (String ch a +:+ c) with (String ch (a +:+ c)).
  destruct (Ascii.eqb ch newline) eqn:Hch.
  - apply Ascii.eqb_eq in Hch. subst ch.
    destruct (cut_newline a) as [-> ->], (cut_newline (a +:+ c)) as [-> ->].
    by rewrite IHlines, IHrest.
  - destruct (cut_other ch a Hch) as [-> ->].
    destruct (cut_other ch (a +:+ c) Hch) as [-> ->].
    rewrite IHlines, IHrest.
    destruct (complete_lines a) as [|line lines]; [|done].
    change (String ch (pending a) +:+ c) with (String ch (pending a +:+ c)).
    by destruct (cut_other ch (pending a +:+ c) Hch) as [-> ->].
Qed.

Lemma pending_no_newline (text : string) : has_newline (pending text) = false.
Proof.
  induction text as [|c rest IH]; [done|].
  destruct (Ascii.eqb c newline) eqn:Hc.
  - apply Ascii.eqb_eq in Hc. subst c. by destruct (cut_newline rest) as [_ ->].
  - destruct (cut_other c rest Hc) as [_ ->].
    destruct (complete_lines rest); [|done].
    unfold has_newline. cbn. by rewrite Hc.
Qed.

Lemma no_newline_cut (text : string) :
  has_newline text = false → complete_lines text = [] ∧ pending text = text.
Proof.
  induction text as [|c rest IH]; [done|].
  intros Hno. unfold has_newline in Hno. cbn in Hno.
  apply orb_false_elim in Hno as [Hc Hrest].
  destruct (IH Hrest) as [Hlines Hpending].
  destruct (cut_other c rest Hc) as [-> ->]. by rewrite Hlines, Hpending.
Qed.

Lemma join_cut (text : string) :
  join_lines (complete_lines text) (pending text) = text.
Proof.
  induction text as [|c rest IH]; [done|].
  destruct (Ascii.eqb c newline) eqn:Hc.
  - apply Ascii.eqb_eq in Hc. subst c. destruct (cut_newline rest) as [-> ->].
    change (String newline (join_lines (complete_lines rest) (pending rest))
            = String newline rest).
    by rewrite IH.
  - destruct (cut_other c rest Hc) as [-> ->]. revert IH.
    destruct (complete_lines rest) as [|line lines]; intros IH.
    + change (String c (join_lines [] (pending rest)) = String c rest).
      by rewrite IH.
    + change (String c (join_lines (line :: lines) (pending rest)) = String c rest).
      by rewrite IH.
Qed.

Lemma has_newline_app (a b : string) :
  has_newline (a +:+ b) = has_newline a || has_newline b.
Proof.
  induction a as [|c a IH]; [done|].
  change (String c a +:+ b) with (String c (a +:+ b)).
  unfold has_newline in *. cbn. by rewrite IH, orb_assoc.
Qed.

(** A line without a newline, closed by one, is handed over whole. *)
Lemma line_cut (line rest : string) :
  has_newline line = false →
  complete_lines (line +:+ String newline rest) = line :: complete_lines rest ∧
  pending (line +:+ String newline rest) = pending rest.
Proof.
  induction line as [|c line IH]; intros Hline.
  - apply cut_newline.
  - unfold has_newline in Hline. cbn in Hline.
    apply orb_false_elim in Hline as [Hc Hline].
    change (String c line +:+ String newline rest)
      with (String c (line +:+ String newline rest)).
    destruct (cut_other c (line +:+ String newline rest) Hc) as [-> ->].
    by destruct (IH Hline) as [-> ->].
Qed.

Section ReaderProperties.
Variable trim : string → string.
Variable parse : string → option Event.

Lemma on_chunk_cut (buffer : string) (s : PipelineState) (chunk : string) :
  on_chunk trim parse (buffer, s) chunk
  = (pending (buffer +:+ chunk),
     foldl (on_line trim parse) s (complete_lines (buffer +:+ chunk))).
Proof. done. Qed.

Lemma on_chunk_twice (loop : string * PipelineState) (c1 c2 : string) :
  on_chunk trim parse (on_chunk trim parse loop c1) c2
  = on_chunk trim parse loop (c1 +:+ c2).
Proof.
  destruct loop as [buffer s]. rewrite !on_chunk_cut.
  rewrite <- string_app_assoc.
  destruct (cut_app (buffer +:+ c1) c2) as [-> ->].
  by rewrite foldl_app.
Qed.

Lemma read_from_text (chunks : list string) (text : string) (s : PipelineState) :
  foldl (on_chunk trim parse) (on_chunk trim parse ("", s) text) chunks
  = on_chunk trim parse ("", s) (text +:+ stream_text chunks).
Proof.
  revert text. induction chunks as [|chunk chunks IH]; intros text.
  - cbn [foldl stream_text foldr]. by rewrite string_app_nil_r.
  - cbn [foldl stream_text foldr]. rewrite on_chunk_twice, IH.
    by rewrite string_app_assoc.
Qed.

Lemma read_stream_text (chunks : list string) (s : PipelineState) :
  read_stream trim parse chunks s
  = (pending (stream_text chunks),
     foldl (on_line trim parse) s (complete_lines (stream_text chunks))).
Proof.
  unfold read_stream.
  change ("", s) with (on_chunk trim parse ("", s) "") at 1.
  by rewrite read_from_text.
Qed.

(** X23.  How the body is cut into chunks does not matter: the loop ends
    with the buffer and the state it would have after reading the whole
    text as one chunk. *)
Theorem chunking_does_not_matter (chunks : list string) (s : PipelineState) :
  read_stream trim parse chunks s
  = read_stream trim parse [stream_text chunks] s.
Proof.
  rewrite !read_stream_text. cbn [stream_text foldr].
  by rewrite string_app_nil_r.
Qed.

(** X24.  After any chunks the loop has applied, in order, exactly the
    lines of the text so far that a newline closes, and its buffer is the
    tail after the last newline; the buffer holds no newline, and lines
    and buffer put together are the text received. *)
Theorem reader_applies_closed_lines (chunks : list string) (s : PipelineState) :
  let text := stream_text chunks in
  let loop := read_stream trim parse chunks s in
  loop.2 = foldl (on_line trim parse) s (complete_lines text) ∧
  loop.1 = pending text ∧
  has_newline loop.1 = false ∧
  join_lines (complete_lines text) loop.1 = text.
Proof.
  cbn zeta. rewrite read_stream_text. cbn [fst snd].
  split; [done|]. split; [done|]. split; [apply pending_no_newline|].
  apply join_cut.
Qed.

(** X25.  A chunk without a newline applies nothing: the state is the one
    before the chunk.  So a frame that lacks its closing newline when the
    stream ends never reaches the handler. *)
Theorem chunk_without_newline_applies_nothing (chunks : list string)
  (chunk : string) (s : PipelineState) :
  has_newline chunk = false →
  (read_stream trim parse (chunks ++ [chunk]) s).2
  = (read_stream trim parse chunks s).2.
Proof.
  intros Hchunk. unfold read_stream. rewrite foldl_app. cbn [foldl].
  fold (read_stream trim parse chunks s). rewrite read_stream_text.
  rewrite on_chunk_cut. cbn [fst snd].
  assert (Hnone : complete_lines (pending (stream_text chunks) +:+ chunk) = []).
  { apply no_newline_cut. rewrite has_newline_app, Hchunk.
    by rewrite pending_no_newline. }
  by rewrite Hnone.
Qed.

(** The line of a frame is parsed from the payload behind its prefix. *)
Lemma on_data_line (payload : string) (s : PipelineState) :
  on_line trim parse s ("data: " +:+ payload)
  = match nonempty (trim payload) ≫= parse with
    | Some event => handleEvent event s
    | None => s
    end.
Proof.
  unfold on_line, payload_of.
  assert (Hprefix : String.prefix "data: " ("data: " +:+ payload) = true)
    by (by destruct payload).
  assert (Hslice : slice_from 6 ("data: " +:+ payload) = payload) by reflexivity.
  by rewrite Hprefix, Hslice.
Qed.

(** X26.  A body made of frames ["data: <json>\n\n"], whose payloads hold
    no newline and parse back to the events they encode, leaves the loop,
    however it is cut into chunks, with an empty buffer and the state
    [handleEvent] gives when folded over those events in order. *)
Theorem framed_events_reach_the_handler (enc : Event → string)
  (events : list Event) (chunks : list string) (s : PipelineState) :
  Forall (λ event, has_newline (enc event) = false ∧
                   nonempty (trim (enc event)) ≫= parse = Some event) events →
  stream_text chunks = stream_text (frame_text enc <$> events) →
  read_stream trim parse chunks s = ("", handleEvents events s).
Proof.
  intros Hall Htext. rewrite read_stream_text, Htext. clear Htext chunks.
  revert s. induction Hall as [|event events [Hline Hparse] _ IH]; intros s; [done|].
  cbn [fmap list_fmap stream_text foldr]. unfold frame_text at 1 3.
  fold (stream_text (frame_text enc <$> events)).
  rewrite !string_app_assoc.
  change ("data: " +:+ enc event +:+ String newline (String newline "")
            +:+ stream_text (frame_text enc <$> events))
    with (("data: " +:+ enc event)
            +:+ String newline
                  (String newline (stream_text (frame_text enc <$> events)))).
  assert (Hprefix : has_newline ("data: " +:+ enc event) = false)
    by (by rewrite has_newline_app, Hline).
  destruct (line_cut _ (String newline (stream_text (frame_text enc <$> events)))
              Hprefix) as [-> ->].
  destruct (cut_newline (stream_text (frame_text enc <$> events))) as [-> ->].
  cbn [foldl]. rewrite on_data_line, Hparse.
  change (on_line trim parse (handleEvent event s) "") with (handleEvent event s).
  specialize (IH (handleEvent event s)).
  injection IH as -> ->. done.
Qed.
End ReaderProperties.

Lemma chunk_without_newline_applies_nothing_witness :
  let trim := λ raw : string, raw in
  let parse := λ raw : string,
    if String.eqb raw "D" then Some (pipeline_done None None) else None in
  let chunks := [ "data: D" +:+ String newline "" ] in
  let chunk := "data: D" in
  has_newline chunk = false ∧
  status (read_stream trim parse chunks (state (run initialSession))).2
    = PipelineStatus.done ∧
  (read_stream trim parse (chunks ++ [chunk]) (state (run initialSession))).2
    = (read_stream trim parse chunks (state (run initialSession))).2 ∧
  (read_stream trim parse [chunk] (state (run initialSession))).2
    = state (run initialSession).
Proof.
  cbn zeta. split; [reflexivity|]. split; [reflexivity|]. split; [|reflexivity].
  exact (chunk_without_newline_applies_nothing _ _
           [ "data: D" +:+ String newline "" ] "data: D" _ eq_refl).
Defined.

Lemma framed_events_reach_the_handler_witness :
  let trim := λ raw : string, raw in
  let parse := λ raw : string,
    if String.eqb raw "S" then Some (agent_start "router-1" None)
    else if String.eqb raw "D" then Some (pipeline_done None None)
    else None in
  let enc := λ event : Event,
    match event with
    | agent_start _ _ => "S"
    | _ => "D"
    end in
  let events := [ agent_start "router-1" None; pipeline_done None None ] in
  let chunks :=
    [ "data"; ": S" +:+ String newline ""; String newline "da";
      "ta: D" +:+ String newline (String newline "") ] in
  Forall (λ event, has_newline (enc event) = false ∧
                   nonempty (trim (enc event)) ≫= parse = Some event) events ∧
  stream_text chunks = stream_text (frame_text enc <$> events) ∧
  read_stream trim parse chunks (state (run initialSession))
  = ("", handleEvents events (state (run initialSession))).
Proof.
  cbn zeta.
  match goal with
  | |- ?all ∧ ?text ∧ _ =>
      assert (Hall : all) by (repeat constructor);
      assert (Htext : text) by reflexivity
  end.
  split; [exact Hall|]. split; [exact Htext|].
  exact (framed_events_reach_the_handler _ _ _ _ _ _ Hall Htext).
Defined.
